(** * Daily unique-customer analytics: a shallow embedding and its properties

    The repository holds three independent scripts.  [analytics.py] fetches
    the rows of the [terminal_logs] table, keeps those of one target date,
    counts the distinct phone numbers of every shop and puts one item per
    shop into a key-value table.  [generate_test_data.py] fills
    [terminal_logs] with random rows.  [check_data.py] only prints.

    The two first scripts are embedded below as programs of a small monad
    of state and exceptions; what the scripts do not decide themselves (the
    clock, the random generator, the remote stores) is part of the state. *)

From Stdlib Require Import ZArith List Bool Lia DecimalString.
From stdpp Require Import gmap strings list fin_maps.

Local Open Scope Z_scope.
Set Warnings "-clear-no-such-hyp".

(** ** The Python runtime used by the scripts *)

Module Py.

(** The exceptions the scripts can meet. [ClientError] stands for whatever
    the key-value store's SDK raises on a failed request. *)
Inductive exn : Type :=
| RuntimeError
| ValueError
| IndexError
| ClientError.

Inductive result (A : Type) : Type :=
| Ok (a : A)
| Raise (e : exn).
Arguments Ok {A} a.
Arguments Raise {A} e.

(** A computation reads and changes a world [W]; an exception keeps the
    world it was raised in (nothing is rolled back). *)
Definition M (W A : Type) : Type := W → result A * W.

#[global] Instance M_ret {W} : MRet (M W) := λ A a w, (Ok a, w).
#[global] Instance M_bind {W} : MBind (M W) := λ A B f c w,
  match c w with
  | (Ok a, w') => f a w'
  | (Raise e, w') => (Raise e, w')
  end.

Definition raise {W A} (e : exn) : M W A := λ w, (Raise e, w).

(** [try: ... except Exception: ...] *)
Definition try_except {W A} (c : M W A) (handler : exn → M W A) : M W A := λ w,
  match c w with
  | (Ok a, w') => (Ok a, w')
  | (Raise e, w') => handler e w'
  end.

(** [for x in l: body] *)
Fixpoint for_ {W A} (l : list A) (body : A → M W unit) : M W unit :=
  match l with
  | [] => mret tt
  | x :: t => body x ;; for_ t body
  end.

(** [[f() for _ in range(n)]] *)
Fixpoint replicateM {W A} (n : nat) (c : M W A) : M W (list A) :=
  match n with
  | O => mret []
  | S k => x ← c; t ← replicateM k c; mret (x :: t)
  end.

(** An oracle is the sequence of the answers still to come. *)
Definition hd_oracle {A} (o : nat → A) : A := o O.
Definition tl_oracle {A} (o : nat → A) : nat → A := λ k, o (S k).

(** Truth value of an optional string, as in [if not url] or [if shop_id]:
    [None] and the empty string are false. *)
Definition truthy (s : option string) : bool :=
  match s with
  | Some s => negb (String.eqb s "")
  | None => false
  end.

(** [a or b] on optional strings. *)
Definition or_else (a b : option string) : option string :=
  if truthy a then a else b.

(** [range(n)] for an integer [n]. *)
Definition range (n : Z) : list Z := Z.of_nat <$> seq 0 (Z.to_nat n).

(** [str(n)] for an integer. *)
Definition str_of_int (n : Z) : string := NilZero.string_of_int (Z.to_int n).

(** *** datetime

    A date is kept as its proleptic Gregorian ordinal ([date.toordinal()]),
    so that [date - timedelta(days=k)] is a subtraction; the bounds of the
    type (years 1 to 9999) are not represented.  A datetime is aware and in
    UTC everywhere in the scripts. *)
Record datetime : Type := mk_datetime {
  dt_date : Z;
  dt_hour : Z;
  dt_minute : Z;
  dt_second : Z;
  dt_microsecond : Z
}.

Record timedelta : Type := mk_timedelta {
  td_days : Z;
  td_seconds : Z;
  td_microseconds : Z
}.

#[global] Instance datetime_eq_dec : EqDecision datetime.
Proof. solve_decision. Defined.

(** The fields of a datetime object are always in these ranges. *)
Definition wf_datetime (d : datetime) : Prop :=
  0 ≤ dt_hour d < 24 ∧ 0 ≤ dt_minute d < 60 ∧ 0 ≤ dt_second d < 60 ∧
  0 ≤ dt_microsecond d < 1000000.

(** [timedelta(days=k)] *)
Definition timedelta_days (k : Z) : timedelta :=
  {| td_days := k; td_seconds := 0; td_microseconds := 0 |}.

(** [dt - td]: field-wise subtraction, then the carries are normalised
    from the microseconds up to the day. *)
Definition datetime_sub (dt : datetime) (td : timedelta) : datetime :=
  let us := dt_microsecond dt - td_microseconds td in
  let s := dt_second dt - td_seconds td + us `div` 1000000 in
  let m := dt_minute dt + s `div` 60 in
  let h := dt_hour dt + m `div` 60 in
  {| dt_date := dt_date dt - td_days td + h `div` 24;
     dt_hour := h `mod` 24;
     dt_minute := m `mod` 60;
     dt_second := s `mod` 60;
     dt_microsecond := us `mod` 1000000 |}.

(** [datetime.combine(d, datetime.min.time()).replace(hour=h, minute=m,
    second=s, tzinfo=timezone.utc)] *)
Definition datetime_at (d h m s : Z) : datetime :=
  {| dt_date := d; dt_hour := h; dt_minute := m; dt_second := s;
     dt_microsecond := 0 |}.

(** *** pandas *)

(** [Series.dropna()] *)
Definition dropna {A} (col : list (option A)) : list A := omap id col.

(** [Series.astype(str)] on a column of strings. *)
Definition astype_str (col : list string) : list string := col.

Section Unique.
Context {A : Type} {EqA : EqDecision A} {CntA : Countable A}.

(** [Series.unique()]: one pass with a hash set of the values already
    met; a value is kept at its first appearance. *)
Fixpoint unique_from (seen : gset A) (col : list A) : list A :=
  match col with
  | [] => []
  | x :: t =>
      if decide (x ∈ seen) then unique_from seen t
      else x :: unique_from ({[x]} ∪ seen) t
  end.

Definition unique (col : list A) : list A := unique_from ∅ col.

(** [Series.nunique()] *)
Definition nunique (col : list A) : nat := length (unique col).
End Unique.

End Py.

Import Py.

(** ** The data model *)

(** A row of [terminal_logs].  [shop_id] and [phone_number] may be null;
    [created_at] is the instant the stored timestamp denotes, in UTC (what
    [pd.to_datetime(..., utc=True)] yields), or null. *)
Record LogRecord : Type := mk_LogRecord {
  shop_id : option string;
  phone_number : option string;
  created_at : option datetime;
  transaction_type : string
}.

#[global] Instance LogRecord_eq_dec : EqDecision LogRecord.
Proof. solve_decision. Defined.

(** ** analytics.py *)

Module Analytics.

(** An item of the summary table.  [item_date] and [updated_at] are the
    date and the instant whose ISO 8601 texts the script stores. *)
Record Item : Type := mk_Item {
  item_shop_id : string;
  item_date : Z;
  unique_customers : Z;
  updated_at : datetime
}.

#[global] Instance Item_eq_dec : EqDecision Item.
Proof. solve_decision. Defined.

(** The text of a [created_at] as the table answers it.  [Written f t] is
    a text in the format [f] (say [%Y-%m-%dT%H:%M:%S%z], or the same with
    [.%f] when the stored instant has a fraction of a second) that reads
    as the instant [t] once brought to UTC; [Unreadable] is any text that
    [pd.to_datetime] cannot turn into a timestamp. *)
Inductive timestamp_text : Type :=
| Written (format : string) (t : datetime)
| Unreadable (text : string).

#[global] Instance timestamp_text_eq_dec : EqDecision timestamp_text.
Proof. solve_decision. Defined.

(** A row as fetched: the columns of [terminal_logs], [created_at] being
    still a text (or null). *)
Record FetchedRow : Type := mk_FetchedRow {
  fetched_shop_id : option string;
  fetched_phone_number : option string;
  fetched_created_at : option timestamp_text;
  fetched_transaction_type : string
}.

#[global] Instance FetchedRow_eq_dec : EqDecision FetchedRow.
Proof. solve_decision. Defined.

(** The lines the script prints. *)
Inductive message : Type :=
| NoDataReturned
| ComputingYesterday (target : Z) (hour : Z)
| ComputingToday (target : Z) (hour : Z)
| NoDataForTargetDate (target : Z)
| ProcessingShops (n : nat) (target : Z)
| ShopLine (shop : string) (target : Z) (n : nat).

Record world : Type := mk_world {
  environ : gmap string string;           (* os.environ *)
  response_data : option (list FetchedRow);(* what select("*") answers *)
  clock : nat → datetime;                 (* readings of datetime.now to come *)
  put_item_raises : nat → bool;           (* outcomes of put_item to come *)
  calls : list Item;                      (* put_item requests issued, oldest first *)
  table : gmap (string * Z) Item;         (* the summary table, by (shop_id, date) *)
  stdout : list message
}.

Abbreviation M := (Py.M world).

Definition print (m : message) : M unit := λ w,
  (Ok tt, mk_world (environ w) (response_data w) (clock w) (put_item_raises w)
            (calls w) (table w) (stdout w ++ [m])).

(** [datetime.now(tz=timezone.utc)] *)
Definition datetime_now : M datetime := λ w,
  (Ok (hd_oracle (clock w)),
   mk_world (environ w) (response_data w) (tl_oracle (clock w))
     (put_item_raises w) (calls w) (table w) (stdout w)).

(** [table.put_item(Item=it)]: the request is issued; unless it raises,
    the item replaces whatever the table holds under its key. *)
Definition put_item (it : Item) : M unit := λ w,
  let issued := calls w ++ [it] in
  if hd_oracle (put_item_raises w) then
    (Raise ClientError,
     mk_world (environ w) (response_data w) (clock w)
       (tl_oracle (put_item_raises w)) issued (table w) (stdout w))
  else
    (Ok tt,
     mk_world (environ w) (response_data w) (clock w)
       (tl_oracle (put_item_raises w)) issued
       (<[(item_shop_id it, item_date it) := it]> (table w)) (stdout w)).

Definition getenv (name : string) : M (option string) := λ w,
  (Ok (environ w !! name), w).

Definition get_supabase_client : M unit :=
  url ← getenv "SUPABASE_URL";
  k1 ← getenv "SUPABASE_SERVICE_ROLE_KEY";
  k2 ← getenv "SUPABASE_ANON_KEY";
  let key := or_else k1 k2 in
  if negb (truthy url) || negb (truthy key) then raise RuntimeError
  else mret tt.

(** [query.execute().data] *)
Definition execute_data : M (option (list FetchedRow)) := λ w,
  (Ok (response_data w), w).

(** [fetch_table_rows(table_name)] with neither limit nor filters:
    [response.data or []]. *)
Definition fetch_table_rows : M (list FetchedRow) :=
  get_supabase_client ;;
  data ← execute_data;
  mret (default [] data).

Definition fetch_table_df : M (list FetchedRow) := fetch_table_rows.

(** One cell of [pd.to_datetime] once the format is known: a null becomes
    NaT; a text written in the format becomes its instant; any other text
    cannot be read. *)
Definition read_cell (format : string) (cell : option timestamp_text)
    : option (option datetime) :=
  match cell with
  | None => Some None
  | Some (Written f t) => if decide (f = format) then Some (Some t) else None
  | Some (Unreadable _) => None
  end.

(** [pd.to_datetime(col, utc=True)] on the ISO 8601 texts of the table:
    the format is guessed from the first text of the column and every text
    is read with it; a text that is not written in that format, or that
    cannot be read at all, is a [ValueError].  A column of nulls becomes a
    column of NaT. *)
Definition to_datetime (col : list (option timestamp_text))
    : M (list (option datetime)) :=
  match head (dropna col) with
  | None => mret ((λ _, None) <$> col)
  | Some (Unreadable _) => raise ValueError
  | Some (Written format _) =>
      match mapM (read_cell format) col with
      | Some parsed => mret parsed
      | None => raise ValueError
      end
  end.

(** A row of the frame once its [created_at] is replaced. *)
Definition with_created_at (r : FetchedRow) (t : option datetime) : LogRecord :=
  {| shop_id := fetched_shop_id r;
     phone_number := fetched_phone_number r;
     created_at := t;
     transaction_type := fetched_transaction_type r |}.

(** Line 132: [df["created_at"] = pd.to_datetime(df["created_at"], utc=True)]. *)
Definition parse_created_at (rows : list FetchedRow) : M (list LogRecord) :=
  parsed ← to_datetime (fetched_created_at <$> rows);
  mret (zip_with with_created_at rows parsed).

Definition save_unique_customer_count_ddb
    (shop : string) (date_str : Z) (n : Z) : M unit :=
  now ← datetime_now;
  put_item {| item_shop_id := shop; item_date := date_str;
              unique_customers := n; updated_at := now |}.

(** [df["created_at"].dt.date == target_date], row by row; a null
    timestamp has no date. *)
Definition on_date (target : Z) (r : LogRecord) : Prop :=
  dt_date <$> created_at r = Some target.

(** [df_today["shop_id"] == shop_id], row by row. *)
Definition of_shop (shop : string) (r : LogRecord) : Prop :=
  shop_id r = Some shop.

#[global] Instance on_date_dec target r : Decision (on_date target r).
Proof. unfold on_date. apply _. Defined.
#[global] Instance of_shop_dec shop r : Decision (of_shop shop r).
Proof. unfold of_shop. apply _. Defined.

(** Lines 135-142: the target date. *)
Definition choose_target_date (now_utc : datetime) : M Z :=
  if dt_hour now_utc =? 0 then
    let target_date := dt_date (datetime_sub now_utc (timedelta_days 1)) in
    print (ComputingYesterday target_date (dt_hour now_utc)) ;;
    mret target_date
  else
    let target_date := dt_date now_utc in
    print (ComputingToday target_date (dt_hour now_utc)) ;;
    mret target_date.

(** Line 164, on the rows of the target date. *)
Definition count_unique_customers (df_today : list LogRecord) (shop : string) : nat :=
  let df_shop := filter (of_shop shop) df_today in
  nunique (astype_str (dropna (phone_number <$> df_shop))).

(** Lines 159-175: the body of the loop over the shops. *)
Definition shop_step (df_today : list LogRecord) (target_date : Z)
    (shop : string) : M unit :=
  let unique_customers := count_unique_customers df_today shop in
  save_unique_customer_count_ddb shop target_date (Z.of_nat unique_customers) ;;
  print (ShopLine shop target_date unique_customers).

(** Lines 145-175: what is done once the target date is known. *)
Definition process_target_date (df : list LogRecord) (target_date : Z) : M unit :=
  let df_today := filter (on_date target_date) df in
  match df_today with
  | [] => print (NoDataForTargetDate target_date)
  | _ :: _ =>
      let unique_shop_ids := unique (dropna (shop_id <$> df_today)) in
      print (ProcessingShops (length unique_shop_ids) target_date) ;;
      for_ unique_shop_ids (shop_step df_today target_date)
  end.

(** Lines 128-175: the script once the rows are fetched. *)
Definition main_df (rows : list FetchedRow) : M unit :=
  match rows with
  | [] => print NoDataReturned
  | _ :: _ =>
      df ← parse_created_at rows;
      now_utc ← datetime_now;
      target_date ← choose_target_date now_utc;
      process_target_date df target_date
  end.

(** The [__main__] block. *)
Definition main : M unit :=
  df ← fetch_table_df;
  main_df df.

End Analytics.

(** ** generate_test_data.py *)

Module GenerateTestData.

(** What [supabase.table(t).insert(batch).execute()] does: it raises, or
    it returns a response whose [data] is null or a list of rows. *)
Inductive insert_outcome : Type :=
| InsertRaises (e : exn)
| InsertData (data : option (list LogRecord)).

(** The lines the function prints. *)
Inductive message : Type :=
| Generating (entries : nat) (num_shops days_back : Z)
| NoDataGenerated
| SampleRecord (r : LogRecord)
| InsertedBatch (batch_no count : nat) (total entries : nat)
| NoDataInResponse (batch_no : nat)
| BatchError (batch_no : nat) (e : exn)
| FailedBatchSample (r : LogRecord)
| Traceback (e : exn)
| Generated (total : nat)
| ShopIds (ids : list string)
| RunAnalyticsHint.

Record world : Type := mk_world {
  environ : gmap string string;          (* os.environ *)
  uuid4_draws : nat → string;            (* texts of the uuid4 values to come *)
  random_draws : nat → Z;                (* numbers the generator will yield *)
  clock : nat → datetime;                (* readings of datetime.now to come *)
  insert_outcomes : nat → insert_outcome;(* outcomes of the inserts to come *)
  inserts : list (list LogRecord);       (* batches sent so far, oldest first *)
  all_data : list LogRecord;             (* the local list [all_data] *)
  total_inserted : nat;                  (* the local counter *)
  stdout : list message
}.

Abbreviation M := (Py.M world).

Definition set_uuid4_draws (x : nat → string) (w : world) : world :=
  mk_world (environ w) x (random_draws w) (clock w) (insert_outcomes w)
    (inserts w) (all_data w) (total_inserted w) (stdout w).
Definition set_random_draws (x : nat → Z) (w : world) : world :=
  mk_world (environ w) (uuid4_draws w) x (clock w) (insert_outcomes w)
    (inserts w) (all_data w) (total_inserted w) (stdout w).
Definition set_clock (x : nat → datetime) (w : world) : world :=
  mk_world (environ w) (uuid4_draws w) (random_draws w) x (insert_outcomes w)
    (inserts w) (all_data w) (total_inserted w) (stdout w).
Definition set_inserts (o : nat → insert_outcome) (x : list (list LogRecord))
    (w : world) : world :=
  mk_world (environ w) (uuid4_draws w) (random_draws w) (clock w) o
    x (all_data w) (total_inserted w) (stdout w).
Definition set_all_data (x : list LogRecord) (w : world) : world :=
  mk_world (environ w) (uuid4_draws w) (random_draws w) (clock w)
    (insert_outcomes w) (inserts w) x (total_inserted w) (stdout w).
Definition set_total_inserted (x : nat) (w : world) : world :=
  mk_world (environ w) (uuid4_draws w) (random_draws w) (clock w)
    (insert_outcomes w) (inserts w) (all_data w) x (stdout w).
Definition set_stdout (x : list message) (w : world) : world :=
  mk_world (environ w) (uuid4_draws w) (random_draws w) (clock w)
    (insert_outcomes w) (inserts w) (all_data w) (total_inserted w) x.

Definition get {A} (f : world → A) : M A := λ w, (Ok (f w), w).
Definition modify (f : world → world) : M unit := λ w, (Ok tt, f w).

Definition print (m : message) : M unit :=
  modify (λ w, set_stdout (stdout w ++ [m]) w).

Definition getenv (name : string) : M (option string) :=
  get (λ w, environ w !! name).

Definition get_supabase_client : M unit :=
  url ← getenv "SUPABASE_URL";
  k1 ← getenv "SUPABASE_SERVICE_ROLE_KEY";
  k2 ← getenv "SUPABASE_ANON_KEY";
  let key := or_else k1 k2 in
  if negb (truthy url) || negb (truthy key) then raise RuntimeError
  else mret tt.

(** [str(uuid.uuid4())] *)
Definition uuid4 : M string :=
  u ← get (λ w, hd_oracle (uuid4_draws w));
  modify (λ w, set_uuid4_draws (tl_oracle (uuid4_draws w)) w) ;;
  mret u.

(** [random.randint(a, b)]: an empty range is a [ValueError]; otherwise
    the next number of the generator is brought into [a .. b]. *)
Definition randint (a b : Z) : M Z :=
  if b <? a then raise ValueError
  else
    x ← get (λ w, hd_oracle (random_draws w));
    modify (λ w, set_random_draws (tl_oracle (random_draws w)) w) ;;
    mret (a + x `mod` (b - a + 1)).

(** [random.choice(seq)]: an empty sequence is an [IndexError]. *)
Definition choice {A} (seq : list A) : M A :=
  match seq with
  | [] => raise IndexError
  | x0 :: _ =>
      x ← get (λ w, hd_oracle (random_draws w));
      modify (λ w, set_random_draws (tl_oracle (random_draws w)) w) ;;
      mret (nth (Z.to_nat (x `mod` Z.of_nat (length seq))) seq x0)
  end.

(** [datetime.now(tz=timezone.utc)] *)
Definition datetime_now : M datetime :=
  now ← get (λ w, hd_oracle (clock w));
  modify (λ w, set_clock (tl_oracle (clock w)) w) ;;
  mret now.

(** [supabase.table(table_name).insert(batch).execute()], giving
    [result.data]. *)
Definition insert_execute (batch : list LogRecord) : M (option (list LogRecord)) :=
  o ← get (λ w, hd_oracle (insert_outcomes w));
  modify (λ w, set_inserts (tl_oracle (insert_outcomes w)) (inserts w ++ [batch]) w) ;;
  match o with
  | InsertRaises e => raise e
  | InsertData data => mret data
  end.

(** Lines 63-82: one synthetic row, appended to [all_data]. *)
Definition append_log (target_date : Z) (shop : string)
    (phone_numbers : list string) : M unit :=
  hour ← randint 0 23;
  minute ← randint 0 59;
  second ← randint 0 59;
  let created := datetime_at target_date hour minute second in
  phone ← choice phone_numbers;
  modify (λ w, set_all_data (all_data w ++
    [{| shop_id := Some shop; phone_number := Some phone;
        transaction_type := "stamp_collection";
        created_at := Some created |}]) w).

(** Lines 59-82: the rows of one shop on one day. *)
Definition shop_day (num_logs_per_shop : Z) (target_date : Z)
    (phone_numbers : list string) (shop : string) : M unit :=
  num_logs ← randint 5 num_logs_per_shop;
  for_ (range num_logs) (λ _, append_log target_date shop phone_numbers).

(** Lines 56-82: the loop over the days. *)
Definition fill_all_data (num_logs_per_shop days_back : Z) (now : datetime)
    (shop_ids phone_numbers : list string) : M unit :=
  for_ (range (days_back + 1)) (λ day_offset,
    let target_date := dt_date (datetime_sub now (timedelta_days day_offset)) in
    for_ shop_ids (shop_day num_logs_per_shop target_date phone_numbers)).

(** [range(0, n, step)] *)
Definition range_step (n step : nat) : list nat :=
  (λ k, k * step)%nat <$> seq 0 (Nat.div (n + step - 1) step).

(** Lines 97-119: one batch. *)
Definition insert_batch (batch_size : nat) (i : nat) : M unit :=
  all ← get all_data;
  let batch := take batch_size (drop i all) in
  let batch_no := (i `div` batch_size + 1)%nat in
  try_except
    (data ← insert_execute batch;
     match data with
     | Some (r :: rs) =>
         modify (λ w, set_total_inserted (total_inserted w + length (r :: rs))%nat w) ;;
         total ← get total_inserted;
         print (InsertedBatch batch_no (length (r :: rs)) total (length all))
     | None =>
         modify (λ w, set_total_inserted (total_inserted w + length batch)%nat w) ;;
         total ← get total_inserted;
         print (InsertedBatch batch_no (length batch) total (length all))
     | Some [] => print (NoDataInResponse batch_no)
     end)
    (λ e,
       print (BatchError batch_no e) ;;
       match batch with
       | r :: _ => print (FailedBatchSample r)
       | [] => mret tt
       end ;;
       print (Traceback e)).

Definition generate_test_data (num_shops num_logs_per_shop days_back : Z)
    (shop_id : option string) : M unit :=
  get_supabase_client ;;
  shop_ids ← (if truthy shop_id then mret (option_list shop_id)
              else replicateM (Z.to_nat num_shops) uuid4);
  phone_numbers ← replicateM 50
    (n ← randint 80000000 99999999; mret ("+65" +:+ str_of_int n));
  now ← datetime_now;
  modify (set_all_data []) ;;
  fill_all_data num_logs_per_shop days_back now shop_ids phone_numbers ;;
  let batch_size := 100%nat in
  modify (set_total_inserted 0) ;;
  all ← get all_data;
  print (Generating (length all) num_shops days_back) ;;
  match all with
  | [] => print NoDataGenerated
  | first :: _ =>
      print (SampleRecord first) ;;
      for_ (range_step (length all) batch_size) (insert_batch batch_size) ;;
      total ← get total_inserted;
      print (Generated total) ;;
      print (ShopIds shop_ids) ;;
      print RunAnalyticsHint
  end.

End GenerateTestData.

(** ** Vocabulary of the statements *)

Module Run.
Import Analytics.

(** The instant a cell denotes. *)
Definition denoted (cell : option timestamp_text) : option datetime :=
  match cell with
  | Some (Written _ t) => Some t
  | _ => None
  end.

(** A fetched row with its [created_at] read as the instant its text
    denotes; an unreadable text denotes none. *)
Definition read (r : FetchedRow) : LogRecord :=
  with_created_at r (denoted (fetched_created_at r)).

(** The fetched rows, read. *)
Definition frame (rows : list FetchedRow) : list LogRecord := read <$> rows.

(** A cell is null or a text written in the format. *)
Definition in_format (format : string) (cell : option timestamp_text) : Prop :=
  match cell with
  | None => True
  | Some (Written f _) => f = format
  | Some (Unreadable _) => False
  end.

#[global] Instance in_format_dec format cell : Decision (in_format format cell).
Proof. destruct cell as [[f t|s]|]; simpl; apply _. Defined.

(** The texts of [created_at] are, nulls apart, all written in one and the
    same format. *)
Definition one_format (rows : list FetchedRow) : Prop :=
  ∃ format, Forall (λ r, in_format format (fetched_created_at r)) rows.

(** What the script does with a frame whose timestamps are parsed: lines
    128-175 without line 132. *)
Definition main_parsed (df : list LogRecord) : M unit :=
  match df with
  | [] => print NoDataReturned
  | _ :: _ =>
      now_utc ← datetime_now;
      target_date ← choose_target_date now_utc;
      process_target_date df target_date
  end.

(** The date lines 137-142 settle on. *)
Definition target_date (now_utc : datetime) : Z :=
  if dt_hour now_utc =? 0 then dt_date (datetime_sub now_utc (timedelta_days 1))
  else dt_date now_utc.

(** The shops the loop visits, in its order. *)
Definition shops_of (df : list LogRecord) (target : Z) : list string :=
  unique (dropna (shop_id <$> filter (on_date target) df)).

(** The item the loop builds for a shop when the clock reads [now]. *)
Definition summary (df : list LogRecord) (target : Z) (now : datetime)
    (shop : string) : Item :=
  {| item_shop_id := shop; item_date := target;
     unique_customers :=
       Z.of_nat (count_unique_customers (filter (on_date target) df) shop);
     updated_at := now |}.

(** The items of a whole loop; the k-th one reads the clock k-th. *)
Definition summaries (df : list LogRecord) (target : Z) (clk : nat → datetime)
    (shops : list string) : list Item :=
  imap (λ k shop, summary df target (clk k) shop) shops.

Definition upsert (t : gmap (string * Z) Item) (it : Item) : gmap (string * Z) Item :=
  <[(item_shop_id it, item_date it) := it]> t.

(** How many of the [n] next requests succeed before one raises. *)
Fixpoint successes (raises : nat → bool) (n : nat) : nat :=
  match n with
  | O => O
  | S m => if hd_oracle raises then O else S (successes (tl_oracle raises) m)
  end.

(** With rows fetched, the run reads the clock, prints the date it
    settles on and goes on with it. *)
Definition dated (w : world) : world :=
  let now_utc := hd_oracle (clock w) in
  mk_world (environ w) (response_data w) (tl_oracle (clock w))
    (put_item_raises w) (calls w) (table w)
    (stdout w ++ [if dt_hour now_utc =? 0
                  then ComputingYesterday (target_date now_utc) (dt_hour now_utc)
                  else ComputingToday (target_date now_utc) (dt_hour now_utc)]).

(** The requests a run issues, whatever the world held before. *)
Definition issued (w w' : world) : list Item := drop (length (calls w)) (calls w').

(** A row of a shop on a date. *)
Definition row_of (shop : string) (date : Z) (r : LogRecord) : Prop :=
  shop_id r = Some shop ∧ dt_date <$> created_at r = Some date.

#[global] Instance row_of_dec shop date r : Decision (row_of shop date r).
Proof. unfold row_of. apply _. Defined.

(** The set the data model defines [unique_customers] by: the non-null
    phone numbers of the rows of the shop on the date. *)
Definition distinct_phones (df : list LogRecord) (shop : string) (date : Z)
    : gset string :=
  list_to_set (omap phone_number (filter (row_of shop date) df)).

(** Position, among the fetched rows, of the first row of a shop on a date. *)
Definition first_row (df : list LogRecord) (shop : string) (date : Z) : option nat :=
  fst <$> list_find (row_of shop date) df.

(** The shops that have a row on a date. *)
Definition shops_on (df : list LogRecord) (date : Z) : gset string :=
  list_to_set (omap shop_id (filter (on_date date) df)).

Definition key (it : Item) : string * Z := (item_shop_id it, item_date it).

(** A summary without the instant of its computation. *)
Definition summary_core (it : Item) : string * Z * Z :=
  (item_shop_id it, item_date it, unique_customers it).

End Run.

(** ** Sample data *)

Module Sample.
Import Analytics.

(** Ordinals of 2026-01-19, 2026-01-20 and 2026-01-21. *)
Definition jan19 : Z := 739635.
Definition jan20 : Z := 739636.
Definition jan21 : Z := 739637.

(** The two formats the table writes timestamps in: without and with a
    fraction of a second. *)
Definition seconds : string := "%Y-%m-%dT%H:%M:%S%z".
Definition fraction : string := "%Y-%m-%dT%H:%M:%S.%f%z".

(** A fetched row of a whole hour, written without fraction. *)
Definition log (shop phone : option string) (date hour : Z) : FetchedRow :=
  {| fetched_shop_id := shop; fetched_phone_number := phone;
     fetched_created_at := Some (Written seconds (mk_datetime date hour 0 0 0));
     fetched_transaction_type := "stamp_collection" |}.

(** A fetched row whose instant has a fraction of a second, and is written
    with it. *)
Definition log_fraction (shop phone : option string) (date hour : Z) : FetchedRow :=
  {| fetched_shop_id := shop; fetched_phone_number := phone;
     fetched_created_at :=
       Some (Written fraction (mk_datetime date hour 0 0 250000));
     fetched_transaction_type := "stamp_collection" |}.

(** The rows of the end-to-end example: three rows of shop A on the 20th,
    two of them with the same phone number, and one row of shop B on the
    19th. *)
Definition rows : list FetchedRow :=
  [ log (Some "A") (Some "+6581234567") jan20 10;
    log (Some "A") (Some "+6581234567") jan20 11;
    log (Some "A") (Some "+6587654321") jan20 12;
    log (Some "B") (Some "+6581111111") jan19 10 ].

(** Rows of three shops on the 20th; shop C has no phone number at all,
    and one row has no shop. *)
Definition rows3 : list FetchedRow :=
  [ log (Some "B") (Some "+6581111111") jan20 8;
    log None (Some "+6582222222") jan20 9;
    log (Some "A") (Some "+6581234567") jan20 10;
    log (Some "C") None jan20 10;
    log (Some "B") (Some "+6583333333") jan20 11;
    log (Some "A") None jan20 12 ].

(** A clock started on 2026-01-21 at 00:15:00 UTC that advances by one
    second at each reading. *)
Definition clock_0015 : nat → datetime :=
  λ k, mk_datetime jan21 0 15 (Z.of_nat k) 0.

(** A world in which no request raises. *)
Definition calm (df : list FetchedRow) : world :=
  {| environ := {["SUPABASE_URL" := "https://example.supabase.co";
                  "SUPABASE_ANON_KEY" := "anon"]};
     response_data := Some df;
     clock := clock_0015;
     put_item_raises := λ _, false;
     calls := [];
     table := ∅;
     stdout := [] |}.

(** A world in which the request numbered [k] raises. *)
Definition failing (df : list FetchedRow) (k : nat) : world :=
  {| environ := environ (calm df);
     response_data := Some df;
     clock := clock_0015;
     put_item_raises := λ i, bool_decide (i = k);
     calls := [];
     table := ∅;
     stdout := [] |}.

(** The world after one run over [rows], and after a second run. *)
Definition once : world := (main_df rows (calm rows)).2.
Definition twice : world := (main_df rows once).2.

(** Rows as the table hands them out when some instants have a fraction of
    a second and others none: a row of shop A on the 20th written without
    fraction, and a later row without shop written with one. *)
Definition with_orphan : list FetchedRow :=
  [ log (Some "A") (Some "+6581234567") jan20 10;
    log_fraction None (Some "+6582222222") jan20 11 ].

(** Rows of the 19th only, the first written without fraction and the
    second with one. *)
Definition stale : list FetchedRow :=
  [ log (Some "B") (Some "+6581111111") jan19 10;
    log_fraction (Some "B") (Some "+6583333333") jan19 11 ].

(** A row of shop A on the 20th, then a row of shop B on the 19th written
    with a fraction. *)
Definition with_stale : list FetchedRow :=
  [ log (Some "A") (Some "+6581234567") jan20 10;
    log_fraction (Some "B") (Some "+6583333333") jan19 11 ].

End Sample.

(** ** Vocabulary of the statements on the generator *)

Module Gen.
Import GenerateTestData.

(** What [get_supabase_client] asks of the environment. *)
Definition credentials (env : gmap string string) : bool :=
  truthy (env !! "SUPABASE_URL") &&
  (truthy (env !! "SUPABASE_SERVICE_ROLE_KEY") || truthy (env !! "SUPABASE_ANON_KEY")).

(** [w'] is [w] after rows were appended to [all_data], random numbers
    being the only other thing consumed. *)
Definition filled (w w' : world) (rows : list LogRecord) : Prop :=
  environ w' = environ w ∧ uuid4_draws w' = uuid4_draws w ∧
  clock w' = clock w ∧ insert_outcomes w' = insert_outcomes w ∧
  inserts w' = inserts w ∧ total_inserted w' = total_inserted w ∧
  stdout w' = stdout w ∧ all_data w' = all_data w ++ rows.

(** [w'] is [w] after a step that neither sends nor prints anything. *)
Definition quiet (w w' : world) : Prop :=
  environ w' = environ w ∧ insert_outcomes w' = insert_outcomes w ∧
  inserts w' = inserts w ∧ stdout w' = stdout w.

(** A row as the generator makes them for a shop on a date. *)
Definition synthetic (date : Z) (shop : string) (phone_numbers : list string)
    (r : LogRecord) : Prop :=
  shop_id r = Some shop ∧
  (∃ p, phone_number r = Some p ∧ p ∈ phone_numbers) ∧
  transaction_type r = "stamp_collection" ∧
  ∃ h m s, created_at r = Some (mk_datetime date h m s 0) ∧
           0 ≤ h < 24 ∧ 0 ≤ m < 60 ∧ 0 ≤ s < 60.

(** The rows of the shops of one day, shop by shop. *)
Definition day_blocks (n : Z) (date : Z) (phones : list string)
    (shops : list string) (blocks : list (list LogRecord)) : Prop :=
  Forall2 (λ shop rows,
    (5 ≤ length rows ≤ Z.to_nat n)%nat ∧
    Forall (synthetic date shop phones) rows) shops blocks.

(** The rows of all the days, day by day; the day at offset [k] is the
    date of [now - timedelta(days=k)]. *)
Definition all_blocks (n : Z) (now : datetime) (phones shops : list string)
    (offsets : list Z) (days : list (list (list LogRecord))) : Prop :=
  Forall2 (λ k blocks,
    day_blocks n (dt_date (datetime_sub now (timedelta_days k))) phones
      shops blocks) offsets days.

(** The shops rows are generated for: the one given, or as many fresh
    ones as asked for. *)
Definition shop_ids_for (num_shops : Z) (shop_id : option string)
    (ids : list string) : Prop :=
  if truthy shop_id then ids = option_list shop_id
  else length ids = Z.to_nat num_shops.

(** A phone number of the pool: +65 and a number of eight digits that
    starts with 8 or 9. *)
Definition sg_phone (p : string) : Prop :=
  ∃ n, 80000000 ≤ n ≤ 99999999 ∧ p = "+65" +:+ str_of_int n.

(** The rows a batch adds to the reported total, by the outcome of its
    insert. *)
Definition credited (batch : list LogRecord) (o : insert_outcome) : nat :=
  match o with
  | InsertRaises _ => 0
  | InsertData None => length batch
  | InsertData (Some data) => length data
  end.

(** The batches of [batch_size] rows a list is cut into. *)
Definition batches (batch_size : nat) (all : list LogRecord) : list (list LogRecord) :=
  (λ i, take batch_size (drop i all)) <$> range_step (length all) batch_size.

(** The total the generator reports after sending [bs] with the outcomes
    [o] to come. *)
Fixpoint reported (o : nat → insert_outcome) (bs : list (list LogRecord)) : nat :=
  match bs with
  | [] => 0
  | b :: bs => credited b (hd_oracle o) + reported (tl_oracle o) bs
  end.

(** A world for examples: credentials are set, the second insert raises
    and the others answer without data. *)
Definition demo : world :=
  {| environ := {["SUPABASE_URL" := "https://example.supabase.co";
                  "SUPABASE_ANON_KEY" := "anon"]};
     uuid4_draws := λ k, "shop-" +:+ str_of_int (Z.of_nat k);
     random_draws := λ k, Z.of_nat k * 7919 + 13;
     clock := Sample.clock_0015;
     insert_outcomes := λ k, if (k =? 1)%nat then InsertRaises ClientError
                             else InsertData None;
     inserts := [];
     all_data := [];
     total_inserted := 0;
     stdout := [] |}.

(** The same world without any environment variable. *)
Definition bare : world :=
  {| environ := ∅;
     uuid4_draws := uuid4_draws demo;
     random_draws := random_draws demo;
     clock := clock demo;
     insert_outcomes := insert_outcomes demo;
     inserts := [];
     all_data := [];
     total_inserted := 0;
     stdout := [] |}.

(** Lines 84-123 of the generator: what is done once [all_data] is
    filled. *)
Definition closing (num_shops days_back : Z) (shop_ids : list string) : M unit :=
  let batch_size := 100%nat in
  modify (set_total_inserted 0) ;;
  all ← get all_data;
  print (Generating (length all) num_shops days_back) ;;
  match all with
  | [] => print NoDataGenerated
  | first :: _ =>
      print (SampleRecord first) ;;
      for_ (range_step (length all) batch_size) (insert_batch batch_size) ;;
      total ← get total_inserted;
      print (Generated total) ;;
      print (ShopIds shop_ids) ;;
      print RunAnalyticsHint
  end.

End Gen.

(** ** Facts about the runtime *)

Module PyFacts.

Section Unique.
Context {A : Type} {EqA : EqDecision A} {CntA : Countable A}.
Implicit Types (seen : gset A) (col : list A).

Lemma unique_from_app seen col1 col2 :
  unique_from seen (col1 ++ col2) =
  unique_from seen col1 ++ unique_from (list_to_set col1 ∪ seen) col2.
Proof.
  revert seen. induction col1 as [|x col1 IH]; intros seen; simpl.
  - f_equal. set_solver.
  - case_decide as Hx.
    + rewrite IH. do 2 f_equal. set_solver.
    + rewrite IH. simpl. do 3 f_equal. set_solver.
Qed.

Lemma elem_of_unique_from seen col x :
  x ∈ unique_from seen col ↔ x ∈ col ∧ x ∉ seen.
Proof.
  revert seen. induction col as [|y col IH]; intros seen; simpl.
  - set_solver.
  - case_decide as Hy.
    + rewrite IH. set_solver.
    + rewrite elem_of_cons, IH. rewrite elem_of_cons.
      destruct (decide (x = y)) as [->|]; set_solver.
Qed.

Lemma elem_of_unique col x : x ∈ unique col ↔ x ∈ col.
Proof. unfold unique. rewrite elem_of_unique_from. set_solver. Qed.

Lemma NoDup_unique_from seen col : NoDup (unique_from seen col).
Proof.
  revert seen. induction col as [|y col IH]; intros seen; simpl.
  - constructor.
  - case_decide as Hy; [apply IH|].
    constructor; [|apply IH].
    rewrite elem_of_unique_from. set_solver.
Qed.

Lemma NoDup_unique col : NoDup (unique col).
Proof. apply NoDup_unique_from. Qed.

(** [nunique] counts the set of the values. *)
Lemma nunique_size col : nunique col = size (list_to_set col : gset A).
Proof.
  unfold nunique.
  assert (Hset : (list_to_set col : gset A) = list_to_set (unique col)).
  { apply set_eq. intros x. rewrite !elem_of_list_to_set.
    by rewrite elem_of_unique. }
  rewrite Hset. symmetry. apply size_list_to_set, NoDup_unique.
Qed.

Lemma unique_from_none seen col :
  (∀ x, x ∈ col → x ∈ seen) → unique_from seen col = [].
Proof.
  revert seen. induction col as [|y col IH]; intros seen Hall; simpl; [done|].
  case_decide as Hy.
  - apply IH. set_solver.
  - exfalso. apply Hy, Hall. set_solver.
Qed.

(** A value first met before another one comes before it in the result. *)
Lemma unique_first_order col1 a col2 b :
  a ∉ col1 → b ∉ col1 → b ≠ a → b ∈ col2 →
  ∃ pre mid post,
    unique (col1 ++ a :: col2) = pre ++ a :: mid ++ b :: post.
Proof.
  intros Ha Hb Hba Hb2. unfold unique.
  rewrite unique_from_app. simpl.
  rewrite decide_False by set_solver.
  set (seen := {[a]} ∪ (list_to_set col1 ∪ ∅)).
  assert (Hin : b ∈ unique_from seen col2).
  { apply elem_of_unique_from. split; [done|]. subst seen. set_solver. }
  apply list_elem_of_split in Hin as (mid & post & ->).
  by exists (unique_from ∅ col1), mid, post.
Qed.
End Unique.

Lemma dropna_app {A} (c1 c2 : list (option A)) :
  dropna (c1 ++ c2) = dropna c1 ++ dropna c2.
Proof. unfold dropna. apply omap_app. Qed.

Lemma elem_of_dropna {A} (c : list (option A)) x :
  x ∈ dropna c ↔ Some x ∈ c.
Proof.
  unfold dropna. rewrite list_elem_of_omap. split.
  - intros (o & Ho & Hx). simpl in Hx. by subst.
  - intros Hx. by exists (Some x).
Qed.

Lemma dropna_fmap {A B} (f : A → option B) (l : list A) :
  dropna (f <$> l) = omap f l.
Proof.
  unfold dropna. induction l as [|x l IH]; [done|].
  rewrite fmap_cons. simpl. destruct (f x); [f_equal|]; exact IH.
Qed.

(** Taking one day off a well-formed datetime changes its date only. *)
Lemma datetime_sub_days now k :
  wf_datetime now →
  datetime_sub now (timedelta_days k) =
  mk_datetime (dt_date now - k) (dt_hour now) (dt_minute now) (dt_second now)
    (dt_microsecond now).
Proof.
  intros (Hh & Hm & Hs & Hu). unfold datetime_sub, timedelta_days. simpl.
  rewrite !Z.sub_0_r.
  rewrite (Z.div_small (dt_microsecond now)), Z.add_0_r by lia.
  rewrite (Z.div_small (dt_second now)), Z.add_0_r by lia.
  rewrite (Z.div_small (dt_minute now)), Z.add_0_r by lia.
  rewrite (Z.div_small (dt_hour now)), Z.add_0_r by lia.
  rewrite !Z.mod_small by lia. done.
Qed.

End PyFacts.

(** ** Facts about analytics.py *)

Module AnalyticsFacts.
Import Analytics Run PyFacts.

Lemma successes_le raises n : (successes raises n ≤ n)%nat.
Proof.
  revert raises. induction n as [|n IH]; intros raises; simpl; [lia|].
  destruct (hd_oracle raises); [lia|]. specialize (IH (tl_oracle raises)). lia.
Qed.

Lemma successes_all raises n :
  (∀ k, (k < n)%nat → raises k = false) → successes raises n = n.
Proof.
  revert raises. induction n as [|n IH]; intros raises Hno; simpl; [done|].
  unfold hd_oracle. rewrite Hno by lia. f_equal. apply IH.
  intros k Hk. unfold tl_oracle. apply Hno. lia.
Qed.

Lemma successes_first raises n k :
  (k < n)%nat → raises k = true → (∀ j, (j < k)%nat → raises j = false) →
  successes raises n = k.
Proof.
  revert raises k. induction n as [|n IH]; intros raises k Hk Hr Hno; [lia|].
  simpl. unfold hd_oracle. destruct k as [|k].
  - by rewrite Hr.
  - rewrite Hno by lia. f_equal. apply IH; [lia|done|].
    intros j Hj. unfold tl_oracle. apply Hno. lia.
Qed.

Lemma for_cons {W A} (x : A) (t : list A) (body : A → Py.M W unit) w :
  for_ (x :: t) body w =
  match body x w with
  | (Ok _, w') => for_ t body w'
  | (Raise e, w') => (Raise e, w')
  end.
Proof. reflexivity. Qed.

(** One turn of the loop: the clock is read, the request is issued, and
    the line is printed if the request did not raise. *)
Lemma shop_step_eq df target shop w :
  shop_step (filter (on_date target) df) target shop w =
  let it := summary df target (hd_oracle (clock w)) shop in
  if hd_oracle (put_item_raises w) then
    (Raise ClientError,
     mk_world (environ w) (response_data w) (tl_oracle (clock w))
       (tl_oracle (put_item_raises w)) (calls w ++ [it]) (table w) (stdout w))
  else
    (Ok tt,
     mk_world (environ w) (response_data w) (tl_oracle (clock w))
       (tl_oracle (put_item_raises w)) (calls w ++ [it]) (upsert (table w) it)
       (stdout w ++ [ShopLine shop target
          (count_unique_customers (filter (on_date target) df) shop)])).
Proof.
  unfold shop_step, save_unique_customer_count_ddb, datetime_now, put_item, print.
  unfold mbind, M_bind. simpl.
  destruct (hd_oracle (put_item_raises w)); reflexivity.
Qed.

(** The loop over the shops, whatever the requests do. *)
Lemma for_shops_run df target shops w :
  let items := summaries df target (clock w) shops in
  let k := successes (put_item_raises w) (length shops) in
  let run := for_ shops (shop_step (filter (on_date target) df) target) w in
  run.1 = (if decide (k = length shops) then Ok tt else Raise ClientError) ∧
  calls run.2 = calls w ++ take (S k) items ∧
  table run.2 = foldl upsert (table w) (take k items).
Proof.
  revert w. induction shops as [|shop shops IH]; intros w.
  - simpl. rewrite app_nil_r. done.
  - cbv zeta. rewrite for_cons, shop_step_eq. unfold summaries.
    rewrite imap_cons. cbv zeta. simpl successes. simpl length.
    destruct (hd_oracle (put_item_raises w)) eqn:Hraise.
    + rewrite decide_False by lia. done.
    + specialize (IH (mk_world (environ w) (response_data w) (tl_oracle (clock w))
       (tl_oracle (put_item_raises w))
       (calls w ++ [summary df target (hd_oracle (clock w)) shop])
       (upsert (table w) (summary df target (hd_oracle (clock w)) shop))
       (stdout w ++ [ShopLine shop target
          (count_unique_customers (filter (on_date target) df) shop)]))).
      cbv zeta in IH. simpl in IH. destruct IH as (Hr & Hc & Ht).
      split; [|split].
      * rewrite Hr. repeat case_decide; done || lia.
      * rewrite Hc. rewrite <- app_assoc. done.
      * rewrite Ht. done.
Qed.

Lemma choose_target_date_eq now_utc w :
  choose_target_date now_utc w =
  (Ok (target_date now_utc),
   mk_world (environ w) (response_data w) (clock w) (put_item_raises w)
     (calls w) (table w)
     (stdout w ++ [if dt_hour now_utc =? 0
                   then ComputingYesterday (target_date now_utc) (dt_hour now_utc)
                   else ComputingToday (target_date now_utc) (dt_hour now_utc)])).
Proof.
  unfold choose_target_date, target_date.
  destruct (dt_hour now_utc =? 0); reflexivity.
Qed.

Lemma process_target_date_eq df target w :
  process_target_date df target w =
  if decide (filter (on_date target) df = []) then
    print (NoDataForTargetDate target) w
  else
    (print (ProcessingShops (length (shops_of df target)) target) ;;
     for_ (shops_of df target) (shop_step (filter (on_date target) df) target)) w.
Proof.
  unfold process_target_date, shops_of.
  destruct (filter (on_date target) df) eqn:E; [done|].
  rewrite decide_False by done. reflexivity.
Qed.

Lemma shops_of_no_rows df target :
  filter (on_date target) df = [] → shops_of df target = [].
Proof. unfold shops_of. by intros ->. Qed.

Lemma main_parsed_eq r df w :
  main_parsed (r :: df) w =
  process_target_date (r :: df) (target_date (hd_oracle (clock w))) (dated w).
Proof.
  unfold main_parsed, mbind, M_bind, datetime_now.
  rewrite choose_target_date_eq. reflexivity.
Qed.

(** The whole run after the fetch: which requests are issued, what the
    table holds in the end and how the run ends. *)
Lemma main_parsed_run df w :
  let target := target_date (hd_oracle (clock w)) in
  let shops := shops_of df target in
  let items := summaries df target (tl_oracle (clock w)) shops in
  let k := successes (put_item_raises w) (length shops) in
  let run := main_parsed df w in
  run.1 = (if decide (k = length shops) then Ok tt else Raise ClientError) ∧
  calls run.2 = calls w ++ take (S k) items ∧
  table run.2 = foldl upsert (table w) (take k items).
Proof.
  cbv zeta. destruct df as [|r df].
  - simpl. rewrite app_nil_r. done.
  - rewrite main_parsed_eq, process_target_date_eq.
    set (rows := r :: df). set (target := target_date (hd_oracle (clock w))).
    case_decide as Hempty.
    + rewrite (shops_of_no_rows _ _ Hempty). simpl. rewrite app_nil_r. done.
    + unfold mbind, M_bind, print. cbv beta iota.
      match goal with |- context [for_ _ _ ?w1] =>
        pose proof (for_shops_run rows target (shops_of rows target) w1) as Hrun
      end.
      cbv zeta in Hrun. simpl in Hrun. exact Hrun.
Qed.

(** *** The table after a sequence of upserts *)

Lemma foldl_upsert_other items t k0 :
  (∀ it, it ∈ items → key it ≠ k0) → foldl upsert t items !! k0 = t !! k0.
Proof.
  revert t. induction items as [|x items IH]; intros t Hne; simpl; [done|].
  rewrite IH by (intros it Hit; apply Hne; set_solver).
  unfold upsert. apply lookup_insert_ne. apply (Hne x). set_solver.
Qed.

Lemma foldl_upsert_at items t j it :
  NoDup (key <$> items) → items !! j = Some it →
  foldl upsert t items !! key it = Some it.
Proof.
  revert t j. induction items as [|x items IH]; intros t j Hnd Hj; [done|].
  rewrite fmap_cons in Hnd. apply NoDup_cons in Hnd as [Hx Hnd]. simpl.
  destruct j as [|j]; simpl in Hj.
  - injection Hj as ->. rewrite foldl_upsert_other.
    + unfold upsert. apply lookup_insert_eq.
    + intros it' Hit' Heq. apply Hx. rewrite <- Heq.
      by apply list_elem_of_fmap_2.
  - by apply (IH _ j).
Qed.

(** *** The items of a loop *)

Lemma summaries_lookup df target clk shops j :
  summaries df target clk shops !! j =
  summary df target (clk j) <$> shops !! j.
Proof. unfold summaries. by rewrite list_lookup_imap. Qed.

Lemma summaries_length df target clk shops :
  length (summaries df target clk shops) = length shops.
Proof. unfold summaries. apply length_imap. Qed.

Lemma summaries_keys df target clk shops :
  key <$> summaries df target clk shops = (λ s, (s, target)) <$> shops.
Proof.
  apply list_eq. intros j. rewrite !list_lookup_fmap, summaries_lookup.
  by destruct (shops !! j).
Qed.

Lemma summaries_NoDup df target clk shops n :
  NoDup shops → NoDup (key <$> take n (summaries df target clk shops)).
Proof.
  intros Hnd. rewrite fmap_take, summaries_keys, <- fmap_take.
  apply NoDup_fmap_2; [by intros s1 s2 [= ->]|].
  eapply sublist_NoDup; [done|apply sublist_take].
Qed.

Lemma elem_of_summaries df target clk shops it :
  it ∈ summaries df target clk shops →
  ∃ j shop, shops !! j = Some shop ∧ it = summary df target (clk j) shop.
Proof.
  intros (j & Hj)%list_elem_of_lookup. rewrite summaries_lookup in Hj.
  destruct (shops !! j) as [shop|] eqn:Hs; [|done].
  injection Hj as <-. by exists j, shop.
Qed.

Lemma NoDup_shops_of df target : NoDup (shops_of df target).
Proof. apply NoDup_unique. Qed.

(** A shop is visited exactly when it has a row on the date. *)
Lemma elem_of_shops_of df target shop :
  shop ∈ shops_of df target ↔ ∃ r, r ∈ df ∧ row_of shop target r.
Proof.
  unfold shops_of. rewrite elem_of_unique, elem_of_dropna, list_elem_of_fmap.
  split.
  - intros (r & Hr & (Hd & Hin)%list_elem_of_filter). by exists r.
  - intros (r & Hin & Hs & Hd). exists r. split; [done|].
    by apply list_elem_of_filter.
Qed.

(** The code's count is the size of the set of the data model. *)
Lemma count_unique_customers_size df target shop :
  count_unique_customers (filter (on_date target) df) shop =
  size (distinct_phones df shop target).
Proof.
  unfold count_unique_customers, distinct_phones, astype_str.
  rewrite nunique_size. f_equal. f_equal.
  rewrite list_filter_filter. apply dropna_fmap.
Qed.

(** What the run issues, seen from the calls. *)
Lemma issued_main_df df w :
  let target := target_date (hd_oracle (clock w)) in
  let shops := shops_of df target in
  issued w (main_parsed df w).2 =
  take (S (successes (put_item_raises w) (length shops)))
    (summaries df target (tl_oracle (clock w)) shops).
Proof.
  cbv zeta. unfold issued.
  destruct (main_parsed_run df w) as (_ & -> & _).
  apply drop_app_length.
Qed.

(** What the table holds for a visited shop: its summary if the loop got
    past it, what it held before otherwise. *)
Lemma table_main_df_visited df w j shop :
  let target := target_date (hd_oracle (clock w)) in
  let k := successes (put_item_raises w) (length (shops_of df target)) in
  shops_of df target !! j = Some shop →
  table (main_parsed df w).2 !! (shop, target) =
  if decide (j < k)%nat
  then Some (summary df target (tl_oracle (clock w) j) shop)
  else table w !! (shop, target).
Proof.
  cbv zeta. intros Hj.
  destruct (main_parsed_run df w) as (_ & _ & ->).
  set (target := target_date (hd_oracle (clock w))) in *.
  set (shops := shops_of df target) in *.
  set (k := successes (put_item_raises w) (length shops)).
  assert (Hnd : NoDup shops) by apply NoDup_shops_of.
  case_decide as Hjk.
  - change (shop, target) with
      (key (summary df target (tl_oracle (clock w) j) shop)).
    apply (foldl_upsert_at _ _ j); [by apply summaries_NoDup|].
    rewrite lookup_take_lt by done. rewrite summaries_lookup, Hj. done.
  - apply foldl_upsert_other. intros it (i & Hi & Hik)%elem_of_take.
    rewrite summaries_lookup in Hi.
    destruct (shops !! i) as [s|] eqn:Hs; [|done]. injection Hi as <-.
    unfold key. simpl. intros [= ->].
    pose proof (NoDup_lookup _ _ _ _ Hnd Hs Hj). lia.
Qed.

(** Keys of other dates, and of shops the loop does not visit, are left
    as they were. *)
Lemma table_main_df_other df w shop date :
  let target := target_date (hd_oracle (clock w)) in
  date ≠ target ∨ shop ∉ shops_of df target →
  table (main_parsed df w).2 !! (shop, date) = table w !! (shop, date).
Proof.
  cbv zeta. intros Hother.
  destruct (main_parsed_run df w) as (_ & _ & ->).
  apply foldl_upsert_other. intros it (i & Hi & _)%elem_of_take.
  rewrite summaries_lookup in Hi.
  destruct (shops_of _ _ !! i) as [s|] eqn:Hs; [|done]. injection Hi as <-.
  unfold key. simpl. intros [= -> <-]. destruct Hother as [?|Hnot]; [done|].
  apply Hnot. by apply list_elem_of_lookup_2 in Hs.
Qed.

(** A run that ends normally went through the whole loop. *)
Lemma main_parsed_ok_successes df w :
  (main_parsed df w).1 = Ok tt →
  successes (put_item_raises w)
    (length (shops_of df (target_date (hd_oracle (clock w))))) =
  length (shops_of df (target_date (hd_oracle (clock w)))).
Proof.
  destruct (main_parsed_run df w) as (-> & _). by case_decide.
Qed.

Lemma main_parsed_no_raise df w :
  (∀ k, put_item_raises w k = false) → (main_parsed df w).1 = Ok tt.
Proof.
  intros Hno. destruct (main_parsed_run df w) as (-> & _).
  rewrite successes_all by auto. by rewrite decide_True.
Qed.

(** *** The run on a parsed frame *)

(** For every current UTC instant: if its hour of the day is 0, the
    target date is its date minus one day; at every other hour the target
    date is its date.  This is the date the run computes, and the date of
    every item it sends. *)
Lemma parsed_target_date_rule (df : list LogRecord) (w : world) :
  let now_utc := hd_oracle (clock w) in
  let rule := if dt_hour now_utc =? 0 then dt_date now_utc - 1
              else dt_date now_utc in
  wf_datetime now_utc →
  (choose_target_date now_utc w).1 = Ok rule ∧
  Forall (λ it, item_date it = rule) (issued w (main_parsed df w).2).
Proof.
  cbv zeta. intros Hwf.
  assert (Hrule : target_date (hd_oracle (clock w)) =
    if dt_hour (hd_oracle (clock w)) =? 0 then dt_date (hd_oracle (clock w)) - 1
    else dt_date (hd_oracle (clock w))).
  { unfold target_date. destruct (dt_hour _ =? 0); [|done].
    by rewrite datetime_sub_days. }
  split.
  - rewrite choose_target_date_eq. simpl. by rewrite Hrule.
  - rewrite issued_main_df, <- Hrule. apply Forall_forall.
    intros it (i & Hi & _)%elem_of_take.
    apply list_elem_of_lookup_2, elem_of_summaries in Hi as (? & ? & _ & ->).
    done.
Qed.


(** For every list of fetched rows: every item the run sends carries
    the target date and, as [unique_customers], the number of elements of
    the set of the non-null phone numbers of the rows of its shop on that
    date; when the run ends normally the table holds such an item for
    every shop that has a row on the date. *)
Lemma parsed_unique_customers_is_distinct_phone_count (df : list LogRecord) (w : world) :
  let target := target_date (hd_oracle (clock w)) in
  let run := main_parsed df w in
  (∀ it, it ∈ issued w run.2 →
     item_date it = target ∧
     unique_customers it =
       Z.of_nat (size (distinct_phones df (item_shop_id it) target))) ∧
  (run.1 = Ok tt →
   ∀ shop, (∃ r, r ∈ df ∧ row_of shop target r) →
     ∃ it, table run.2 !! (shop, target) = Some it ∧
           item_shop_id it = shop ∧ item_date it = target ∧
           unique_customers it = Z.of_nat (size (distinct_phones df shop target))).
Proof.
  cbv zeta. split.
  - intros it. rewrite issued_main_df. intros (i & Hi & _)%elem_of_take.
    apply list_elem_of_lookup_2, elem_of_summaries in Hi as (? & shop & _ & ->).
    simpl. by rewrite count_unique_customers_size.
  - intros Hok shop Hrow.
    apply elem_of_shops_of, list_elem_of_lookup in Hrow as (j & Hj).
    pose proof (lookup_lt_Some _ _ _ Hj) as Hlt.
    rewrite (table_main_df_visited _ _ _ _ Hj).
    rewrite (main_parsed_ok_successes _ _ Hok), decide_True by done.
    eexists. split; [done|]. simpl. by rewrite count_unique_customers_size.
Qed.


(** A shop that has a row on the target date, all of whose rows on
    that date have a null phone number, still gets its item when the run
    ends normally, with [unique_customers] 0; and no item the run sends has
    a negative [unique_customers]. *)
Lemma parsed_null_phones_shop_gets_zero (df : list LogRecord) (w : world) (shop : string) :
  let target := target_date (hd_oracle (clock w)) in
  let run := main_parsed df w in
  (∀ it, it ∈ issued w run.2 → 0 ≤ unique_customers it) ∧
  (run.1 = Ok tt →
   (∃ r, r ∈ df ∧ row_of shop target r) →
   (∀ r, r ∈ df → row_of shop target r → phone_number r = None) →
   ∃ it, it ∈ issued w run.2 ∧ table run.2 !! (shop, target) = Some it ∧
         item_shop_id it = shop ∧ item_date it = target ∧
         unique_customers it = 0).
Proof.
  cbv zeta. split.
  - intros it. rewrite issued_main_df. intros (i & Hi & _)%elem_of_take.
    apply list_elem_of_lookup_2, elem_of_summaries in Hi as (? & ? & _ & ->).
    simpl. lia.
  - intros Hok Hrow Hnull.
    apply elem_of_shops_of, list_elem_of_lookup in Hrow as (j & Hj).
    pose proof (lookup_lt_Some _ _ _ Hj) as Hlt.
    pose proof (main_parsed_ok_successes _ _ Hok) as Hk.
    eexists. split; [|split].
    + rewrite issued_main_df, Hk.
      apply elem_of_take. exists j. split; [|lia].
      rewrite summaries_lookup, Hj. reflexivity.
    + rewrite (table_main_df_visited _ _ _ _ Hj).
      by rewrite Hk, decide_True.
    + simpl. split; [done|]. split; [done|].
      rewrite count_unique_customers_size. unfold distinct_phones.
      assert (Hnone : omap phone_number
        (filter (row_of shop (target_date (hd_oracle (clock w)))) df) = []).
      { apply elem_of_nil_inv. intros p (r & Hr & Hp)%list_elem_of_omap.
        apply list_elem_of_filter in Hr as [Hrow Hin].
        rewrite (Hnull r Hin Hrow) in Hp. done. }
      by rewrite Hnone.
Qed.


(** If no row was fetched, or no fetched row is of the target date,
    the run ends normally: it sends no item, leaves the table as it was
    and its last line says that there is no data. *)
Lemma parsed_no_rows_is_normal_end (df : list LogRecord) (w : world) :
  let target := target_date (hd_oracle (clock w)) in
  let run := main_parsed df w in
  df = [] ∨ Forall (λ r, ¬ on_date target r) df →
  run.1 = Ok tt ∧ issued w run.2 = [] ∧ calls run.2 = calls w ∧
  table run.2 = table w ∧
  stdout run.2 =
    match df with
    | [] => stdout w ++ [NoDataReturned]
    | _ :: _ => stdout (dated w) ++ [NoDataForTargetDate target]
    end.
Proof.
  cbv zeta. intros Hnone.
  destruct df as [|r df].
  - unfold issued. simpl. by rewrite drop_all.
  - destruct Hnone as [?|Hnone]; [done|].
    assert (Hempty : filter (on_date (target_date (hd_oracle (clock w))))
                       (r :: df) = []).
    { apply elem_of_nil_inv. intros x [Hx Hin]%list_elem_of_filter.
      rewrite Forall_forall in Hnone. by apply (Hnone x). }
    unfold issued.
    rewrite main_parsed_eq, process_target_date_eq, decide_True by done.
    simpl. by rewrite drop_all.
Qed.


(** If the request for some shop raises, the run ends with that
    exception: the items of the shops before it were sent and stay in the
    table, the failing request was sent once, and nothing is sent for the
    shops after it, whose keys hold what they held before the run. *)
Lemma parsed_failed_upsert_keeps_prefix (df : list LogRecord) (w : world) (k : nat) :
  let target := target_date (hd_oracle (clock w)) in
  let shops := shops_of df target in
  let items := summaries df target (tl_oracle (clock w)) shops in
  let run := main_parsed df w in
  (k < length shops)%nat →
  put_item_raises w k = true →
  (∀ j, (j < k)%nat → put_item_raises w j = false) →
  run.1 = Raise ClientError ∧
  issued w run.2 = take (S k) items ∧
  item_shop_id <$> issued w run.2 = take (S k) shops ∧
  table run.2 = foldl upsert (table w) (take k items) ∧
  (∀ j shop, shops !! j = Some shop →
     table run.2 !! (shop, target) =
     if decide (j < k)%nat
     then Some (summary df target (tl_oracle (clock w) j) shop)
     else table w !! (shop, target)).
Proof.
  cbv zeta. intros Hk Hraise Hbefore.
  pose proof (successes_first _ _ _ Hk Hraise Hbefore) as Hsucc.
  split; [|split; [|split; [|split]]].
  - destruct (main_parsed_run df w) as (-> & _). rewrite Hsucc.
    rewrite decide_False by lia. done.
  - by rewrite issued_main_df, Hsucc.
  - rewrite issued_main_df, Hsucc. rewrite fmap_take. f_equal.
    apply list_eq. intros i. rewrite list_lookup_fmap, summaries_lookup.
    by destruct (_ !! i).
  - destruct (main_parsed_run df w) as (_ & _ & ->). by rewrite Hsucc.
  - intros j shop Hj. rewrite (table_main_df_visited _ _ _ _ Hj).
    by rewrite Hsucc.
Qed.


(** *** Order of the shops *)

(** The column the shops are read from, for a list of rows. *)
Lemma shop_column_app target (l1 l2 : list LogRecord) :
  dropna (shop_id <$> filter (on_date target) (l1 ++ l2)) =
  dropna (shop_id <$> filter (on_date target) l1) ++
  dropna (shop_id <$> filter (on_date target) l2).
Proof. by rewrite filter_app, fmap_app, dropna_app. Qed.

Lemma elem_of_shop_column target (l : list LogRecord) shop :
  shop ∈ dropna (shop_id <$> filter (on_date target) l) ↔
  ∃ r, r ∈ l ∧ row_of shop target r.
Proof.
  rewrite elem_of_dropna, list_elem_of_fmap. split.
  - intros (r & Hr & (Hd & Hin)%list_elem_of_filter). by exists r.
  - intros (r & Hin & Hs & Hd). exists r. split; [done|].
    by apply list_elem_of_filter.
Qed.

(** If the first row of [a] on the date comes before the first row of [b],
    the loop visits [a] before [b]. *)
Lemma shops_of_first_rows df target a b i j :
  first_row df a target = Some i → first_row df b target = Some j →
  (i < j)%nat →
  ∃ pre mid post, shops_of df target = pre ++ a :: mid ++ b :: post.
Proof.
  unfold first_row. intros Ha Hb Hij.
  destruct (list_find (row_of a target) df) as [[i' ra]|] eqn:Hfa; [|done].
  destruct (list_find (row_of b target) df) as [[j' rb]|] eqn:Hfb; [|done].
  simpl in Ha, Hb. injection Ha as ->. injection Hb as ->.
  apply list_find_Some in Hfa as (Hi & Hra & Hfirst_a).
  apply list_find_Some in Hfb as (Hj & Hrb & Hfirst_b).
  unfold shops_of.
  rewrite <- (take_drop_middle df i ra Hi).
  rewrite shop_column_app.
  change (ra :: drop (S i) df) with ([ra] ++ drop (S i) df).
  rewrite shop_column_app.
  assert (Hcol : dropna (shop_id <$> filter (on_date target) [ra]) = [a]).
  { destruct Hra as [Hs Hd]. rewrite filter_cons, decide_True by done.
    simpl. rewrite Hs. done. }
  rewrite Hcol. simpl.
  apply unique_first_order.
  - rewrite elem_of_shop_column. intros (r & Hin & Hr).
    apply list_elem_of_lookup in Hin as (k & Hk).
    apply lookup_take_Some in Hk as [Hk Hlt].
    by apply (Hfirst_a k r).
  - rewrite elem_of_shop_column. intros (r & Hin & Hr).
    apply list_elem_of_lookup in Hin as (k & Hk).
    apply lookup_take_Some in Hk as [Hk Hlt].
    apply (Hfirst_b k r); [done|lia|done].
  - intros ->. apply (Hfirst_b i ra); done.
  - rewrite elem_of_shop_column. exists rb. split; [|done].
    apply list_elem_of_lookup. exists (j - S i)%nat.
    rewrite lookup_drop. rewrite <- Hj. f_equal. lia.
Qed.

Lemma issued_lookup df w p it :
  let target := target_date (hd_oracle (clock w)) in
  let shops := shops_of df target in
  issued w (main_parsed df w).2 !! p = Some it ↔
  (p < S (successes (put_item_raises w) (length shops)))%nat ∧
  ∃ shop, shops !! p = Some shop ∧
          it = summary df target (tl_oracle (clock w) p) shop.
Proof.
  cbv zeta. rewrite issued_main_df, lookup_take_Some, summaries_lookup.
  split.
  - intros [Hp Hlt]. split; [done|].
    destruct (shops_of _ _ !! p) as [shop|]; [|done].
    injection Hp as <-. by exists shop.
  - intros [Hlt (shop & -> & ->)]. done.
Qed.

(** The items are sent in the order in which the shops first appear
    among the rows of the target date: if the first such row of shop [a]
    comes before the first such row of shop [b], whenever an item of [b] is
    sent an item of [a] was sent before it; and both are sent when the run
    ends normally. *)
Lemma parsed_upserts_follow_first_appearance (df : list LogRecord) (w : world)
    (a b : string) (i j : nat) :
  let target := target_date (hd_oracle (clock w)) in
  let run := main_parsed df w in
  first_row df a target = Some i →
  first_row df b target = Some j →
  (i < j)%nat →
  (∀ pb itb, issued w run.2 !! pb = Some itb → item_shop_id itb = b →
     ∃ pa ita, (pa < pb)%nat ∧ issued w run.2 !! pa = Some ita ∧
               item_shop_id ita = a) ∧
  (run.1 = Ok tt →
     ∃ pa pb ita itb, (pa < pb)%nat ∧
       issued w run.2 !! pa = Some ita ∧ item_shop_id ita = a ∧
       issued w run.2 !! pb = Some itb ∧ item_shop_id itb = b).
Proof.
  cbv zeta. intros Ha Hb Hij.
  destruct (shops_of_first_rows _ _ _ _ _ _ Ha Hb Hij) as (pre & mid & post & Hshops).
  pose proof (NoDup_shops_of df (target_date (hd_oracle (clock w)))) as Hnd.
  assert (Hpa : shops_of df (target_date (hd_oracle (clock w))) !! length pre
                = Some a).
  { rewrite Hshops. by apply list_lookup_middle. }
  assert (Hpb : shops_of df (target_date (hd_oracle (clock w)))
                  !! (length pre + S (length mid))%nat = Some b).
  { rewrite Hshops. rewrite lookup_app_r by lia.
    replace (length pre + S (length mid) - length pre)%nat
      with (S (length mid)) by lia.
    simpl. by apply list_lookup_middle. }
  split.
  - intros pb itb Hitb Hshop.
    apply issued_lookup in Hitb as (Hlt & shop & Hs & ->). simpl in Hshop.
    subst shop.
    pose proof (NoDup_lookup _ _ _ _ Hnd Hs Hpb) as ->.
    exists (length pre), (summary df (target_date (hd_oracle (clock w)))
                            (tl_oracle (clock w) (length pre)) a).
    split; [lia|]. split; [|done].
    apply issued_lookup. split; [lia|]. by exists a.
  - intros Hok. pose proof (main_parsed_ok_successes _ _ Hok) as Hk.
    pose proof (lookup_lt_Some _ _ _ Hpb) as Hlen.
    exists (length pre), (length pre + S (length mid))%nat.
    eexists. eexists. split; [lia|].
    split; [|split; [|split]].
    + apply issued_lookup. split; [lia|]. by exists a.
    + done.
    + apply issued_lookup. split; [lia|]. by exists b.
    + done.
Qed.


(** *** Null fields *)

Lemma shop_rows_without target shop (l1 l2 : list LogRecord) r :
  shop_id r = None →
  filter (of_shop shop) (filter (on_date target) (l1 ++ r :: l2)) =
  filter (of_shop shop) (filter (on_date target) (l1 ++ l2)).
Proof.
  intros Hnull. rewrite !filter_app. f_equal.
  rewrite filter_cons. case_decide; [|done].
  rewrite filter_cons, decide_False; [done|].
  unfold of_shop. by rewrite Hnull.
Qed.

Lemma shops_of_without target (l1 l2 : list LogRecord) r :
  shop_id r = None →
  shops_of (l1 ++ r :: l2) target = shops_of (l1 ++ l2) target.
Proof.
  intros Hnull. unfold shops_of. f_equal.
  change (r :: l2) with ([r] ++ l2). rewrite !shop_column_app.
  f_equal. rewrite filter_cons. case_decide; [|done].
  simpl. by rewrite Hnull.
Qed.

Lemma count_without_phone target shop (l1 l2 : list LogRecord) r :
  phone_number r = None →
  count_unique_customers (filter (on_date target) (l1 ++ r :: l2)) shop =
  count_unique_customers (filter (on_date target) (l1 ++ l2)) shop.
Proof.
  intros Hnull. unfold count_unique_customers. do 2 f_equal.
  rewrite !filter_app, !fmap_app, !dropna_app. f_equal.
  rewrite filter_cons. case_decide; [|done].
  rewrite filter_cons. case_decide; [|done].
  rewrite fmap_cons, Hnull. done.
Qed.

(** A row whose phone number is null adds nothing to the count of any
    shop on any date; a row whose shop is null belongs to no partition,
    and the run ends, sends and stores exactly what it would without it. *)
Lemma parsed_null_fields_do_not_count (l1 l2 : list LogRecord) (r : LogRecord) :
  (phone_number r = None →
   ∀ target shop,
     count_unique_customers (filter (on_date target) (l1 ++ r :: l2)) shop =
     count_unique_customers (filter (on_date target) (l1 ++ l2)) shop) ∧
  (shop_id r = None →
   (∀ target shop,
      (r ∉ filter (of_shop shop) (filter (on_date target) (l1 ++ r :: l2))) ∧
      filter (of_shop shop) (filter (on_date target) (l1 ++ r :: l2)) =
      filter (of_shop shop) (filter (on_date target) (l1 ++ l2))) ∧
   (∀ w,
      (main_parsed (l1 ++ r :: l2) w).1 = (main_parsed (l1 ++ l2) w).1 ∧
      calls (main_parsed (l1 ++ r :: l2) w).2 = calls (main_parsed (l1 ++ l2) w).2 ∧
      table (main_parsed (l1 ++ r :: l2) w).2 = table (main_parsed (l1 ++ l2) w).2)).
Proof.
  split.
  - intros Hnull target shop. by apply count_without_phone.
  - intros Hnull. split.
    + intros target shop. split; [|by apply shop_rows_without].
      intros [Hshop _]%list_elem_of_filter. unfold of_shop in Hshop.
      by rewrite Hnull in Hshop.
    + intros w.
      destruct (main_parsed_run (l1 ++ r :: l2) w) as (-> & -> & ->).
      destruct (main_parsed_run (l1 ++ l2) w) as (-> & -> & ->).
      rewrite !shops_of_without by done.
      assert (Hitems :
        summaries (l1 ++ r :: l2) (target_date (hd_oracle (clock w)))
          (tl_oracle (clock w))
          (shops_of (l1 ++ l2) (target_date (hd_oracle (clock w)))) =
        summaries (l1 ++ l2) (target_date (hd_oracle (clock w)))
          (tl_oracle (clock w))
          (shops_of (l1 ++ l2) (target_date (hd_oracle (clock w))))).
      { apply list_eq. intros k. rewrite !summaries_lookup.
        destruct (_ !! k) as [shop|]; [|done]. simpl. f_equal.
        unfold summary. f_equal. f_equal.
        unfold count_unique_customers. by rewrite shop_rows_without. }
      by rewrite Hitems.
Qed.


(** *** Running twice *)


(** When a run has ended normally, a second run over the
    same rows for the same target date leaves, under every key, a summary
    with the same shop, date and count: it overwrites and does not
    accumulate.  Only [updated_at] changes, to the instant of the second
    writing, for the shops the second run gets to. *)
Lemma parsed_rerun_keeps_counts (df : list LogRecord) (w : world) :
  let run1 := main_parsed df w in
  let run2 := main_parsed df run1.2 in
  let target := target_date (hd_oracle (clock w)) in
  run1.1 = Ok tt →
  target_date (hd_oracle (clock run1.2)) = target →
  summary_core <$> table run2.2 = summary_core <$> table run1.2 ∧
  (run2.1 = Ok tt →
   ∀ j shop, shops_of df target !! j = Some shop →
     table run2.2 !! (shop, target) =
     Some (summary df target (tl_oracle (clock run1.2) j) shop)).
Proof.
  cbv zeta. intros Hok Htarget.
  pose proof (main_parsed_ok_successes _ _ Hok) as Hk1.
  split.
  - apply map_eq. intros [shop date]. rewrite !lookup_fmap.
    destruct (decide (date = target_date (hd_oracle (clock w)))) as [->|Hdate].
    + destruct (decide (shop ∈ shops_of df (target_date (hd_oracle (clock w)))))
        as [Hin|Hnot].
      * apply list_elem_of_lookup in Hin as (j & Hj).
        pose proof (lookup_lt_Some _ _ _ Hj) as Hlt.
        pose proof (table_main_df_visited df w j shop Hj) as Hone.
        rewrite Hk1, decide_True in Hone by done.
        pose proof (table_main_df_visited df (main_parsed df w).2 j shop) as Htwo.
        cbv zeta in Htwo. rewrite Htarget in Htwo. specialize (Htwo Hj).
        rewrite Htwo. case_decide; [|done]. rewrite Hone. done.
      * f_equal.
        apply (table_main_df_other df (main_parsed df w).2 shop
                 (target_date (hd_oracle (clock w)))).
        right. by rewrite Htarget.
    + f_equal.
      apply (table_main_df_other df (main_parsed df w).2 shop date).
      left. by rewrite Htarget.
  - intros Hok2 j shop Hj.
    pose proof (main_parsed_ok_successes _ _ Hok2) as Hk2.
    rewrite Htarget in Hk2.
    pose proof (lookup_lt_Some _ _ _ Hj) as Hlt.
    pose proof (table_main_df_visited df (main_parsed df w).2 j shop) as Htwo.
    cbv zeta in Htwo. rewrite Htarget in Htwo. specialize (Htwo Hj).
    rewrite Htwo, Hk2. by rewrite decide_True.
Qed.


(** *** Line 132: parsing the timestamps *)

Lemma bind_run {W A B} (c : Py.M W A) (f : A → Py.M W B) w :
  (c ≫= f) w =
  match c w with
  | (Ok a, w') => f a w'
  | (Raise e, w') => (Raise e, w')
  end.
Proof. reflexivity. Qed.

Lemma read_cells_ok format (col : list (option timestamp_text)) :
  Forall (in_format format) col →
  mapM (read_cell format) col = Some (denoted <$> col).
Proof.
  intros Hall. apply mapM_Some_2.
  induction Hall as [|cell col Hcell _ IH]; [constructor|].
  rewrite fmap_cons. constructor; [|exact IH].
  destruct cell as [[f t|s]|]; simpl in *; [|done..].
  by rewrite decide_True.
Qed.

Lemma read_cells_inv format (col : list (option timestamp_text)) parsed :
  mapM (read_cell format) col = Some parsed → Forall (in_format format) col.
Proof.
  intros Hm. apply mapM_Some_1 in Hm.
  induction Hm as [|cell t col parsed Hcell _ IH]; constructor; [|done].
  destruct cell as [[f t'|s]|]; simpl in *; [|done..].
  by case_decide.
Qed.

Lemma first_text_none (col : list (option timestamp_text)) :
  head (dropna col) = None → Forall (λ cell, cell = None) col.
Proof.
  induction col as [|cell col IH]; [constructor|].
  unfold dropna. csimpl. destruct cell as [c|]; simpl; [done|].
  intros Hh. constructor; [done|]. by apply IH.
Qed.

Lemma first_text_in (col : list (option timestamp_text)) c :
  head (dropna col) = Some c → Some c ∈ col.
Proof.
  intros Hh. apply elem_of_dropna.
  destruct (dropna col) as [|c' l]; [done|]. injection Hh as ->. left.
Qed.

(** [pd.to_datetime] answers exactly when the texts are in one format,
    and then with the instants they denote. *)
Lemma to_datetime_ok (col : list (option timestamp_text)) w format :
  Forall (in_format format) col →
  to_datetime col w = (Ok (denoted <$> col), w).
Proof.
  intros Hall. unfold to_datetime.
  destruct (head (dropna col)) as [[f t|s]|] eqn:Hh.
  - pose proof (first_text_in _ _ Hh) as Hin.
    rewrite Forall_forall in Hall. pose proof (Hall _ Hin) as Hf.
    simpl in Hf. subst f.
    rewrite read_cells_ok by by apply Forall_forall. done.
  - pose proof (first_text_in _ _ Hh) as Hin.
    rewrite Forall_forall in Hall. by destruct (Hall _ Hin).
  - apply first_text_none in Hh. unfold mret, M_ret. do 2 f_equal.
    apply list_fmap_ext. intros i cell Hcell.
    rewrite Forall_forall in Hh.
    by rewrite (Hh cell (list_elem_of_lookup_2 _ _ _ Hcell)).
Qed.

Lemma to_datetime_error (col : list (option timestamp_text)) w :
  (¬ ∃ format, Forall (in_format format) col) →
  to_datetime col w = (Raise ValueError, w).
Proof.
  intros Hnot. unfold to_datetime.
  destruct (head (dropna col)) as [[f t|s]|] eqn:Hh; [|done|].
  - destruct (mapM (read_cell f) col) as [parsed|] eqn:Hm; [|done].
    destruct Hnot. exists f. by eapply read_cells_inv.
  - destruct Hnot. exists "". apply first_text_none in Hh.
    eapply Forall_impl; [exact Hh|]. by intros cell ->.
Qed.

Lemma one_format_cells rows :
  one_format rows ↔
  ∃ format, Forall (in_format format) (fetched_created_at <$> rows).
Proof.
  unfold one_format. split; intros [f Hf]; exists f.
  - by apply Forall_fmap.
  - by apply (Forall_fmap fetched_created_at (in_format f)) in Hf.
Qed.

Lemma one_format_or_not rows : one_format rows ∨ ¬ one_format rows.
Proof.
  rewrite one_format_cells.
  set (col := fetched_created_at <$> rows).
  destruct (head (dropna col)) as [[f t|s]|] eqn:Hh.
  - destruct (decide (Forall (in_format f) col)) as [Hall|Hnot].
    + left. by exists f.
    + right. intros [f' Hall]. apply Hnot.
      pose proof (first_text_in _ _ Hh) as Hin.
      rewrite Forall_forall in Hall. pose proof (Hall _ Hin) as Hf.
      simpl in Hf. subst f'. by apply Forall_forall.
  - right. intros [f' Hall].
    pose proof (first_text_in _ _ Hh) as Hin.
    rewrite Forall_forall in Hall. by destruct (Hall _ Hin).
  - left. exists "". apply first_text_none in Hh.
    eapply Forall_impl; [exact Hh|]. by intros cell ->.
Qed.

Lemma zip_with_created_at rows :
  zip_with with_created_at rows (denoted <$> (fetched_created_at <$> rows))
  = frame rows.
Proof.
  unfold frame. induction rows as [|r rows IH]; [done|].
  rewrite !fmap_cons. simpl. rewrite IH. reflexivity.
Qed.

Lemma parse_created_at_ok rows w :
  one_format rows → parse_created_at rows w = (Ok (frame rows), w).
Proof.
  intros [f Hf]%one_format_cells. unfold parse_created_at.
  rewrite bind_run, (to_datetime_ok _ _ f Hf).
  unfold mret, M_ret. by rewrite zip_with_created_at.
Qed.

Lemma parse_created_at_error rows w :
  ¬ one_format rows → parse_created_at rows w = (Raise ValueError, w).
Proof.
  intros Hnot. unfold parse_created_at.
  rewrite bind_run, to_datetime_error; [done|].
  by rewrite <- one_format_cells.
Qed.

(** The script on fetched rows: when the timestamps are in one format it
    does what it does on the frame they denote; otherwise line 132 raises
    before anything else happens. *)
Lemma main_df_parsed rows w :
  one_format rows → main_df rows w = main_parsed (frame rows) w.
Proof.
  intros Hfmt. destruct rows as [|r rows]; [done|].
  unfold main_df. rewrite bind_run, parse_created_at_ok by done.
  reflexivity.
Qed.

Lemma main_df_error rows w :
  ¬ one_format rows → main_df rows w = (Raise ValueError, w).
Proof.
  intros Hnot. destruct rows as [|r rows].
  - destruct Hnot. exists "". constructor.
  - unfold main_df. by rewrite bind_run, parse_created_at_error.
Qed.

Lemma issued_nothing w : issued w w = [].
Proof. unfold issued. apply drop_all. Qed.

(** What a run that line 132 stops leaves behind: nothing. *)
Lemma main_df_stopped rows w :
  ¬ one_format rows →
  (main_df rows w).1 = Raise ValueError ∧ (main_df rows w).2 = w ∧
  issued w (main_df rows w).2 = [].
Proof.
  intros Hnot. rewrite main_df_error by done. simpl.
  by rewrite issued_nothing.
Qed.

(** *** The claims on the aggregator *)

(** C2. For every current UTC instant: if its hour of the day is 0, the
    target date is its date minus one day; at every other hour the target
    date is its date.  This is the date the run computes, and the date of
    every item it sends. *)
Theorem target_date_rule (rows : list FetchedRow) (w : world) :
  let now_utc := hd_oracle (clock w) in
  let rule := if dt_hour now_utc =? 0 then dt_date now_utc - 1
              else dt_date now_utc in
  wf_datetime now_utc →
  (choose_target_date now_utc w).1 = Ok rule ∧
  Forall (λ it, item_date it = rule) (issued w (main_df rows w).2).
Proof.
  cbv zeta. intros Hwf.
  destruct (parsed_target_date_rule (frame rows) w Hwf) as [Hrule Hitems].
  split; [exact Hrule|].
  destruct (one_format_or_not rows) as [Hfmt|Hnot].
  - by rewrite main_df_parsed.
  - destruct (main_df_stopped rows w Hnot) as (_ & _ & ->). constructor.
Qed.

Lemma target_date_rule_witness :
  (choose_target_date (Sample.clock_0015 0) (Sample.calm Sample.rows)).1 =
    Ok Sample.jan20 ∧
  Forall (λ it, item_date it = Sample.jan20)
    (issued (Sample.calm Sample.rows)
       (main_df Sample.rows (Sample.calm Sample.rows)).2).
Proof.
  apply (target_date_rule Sample.rows (Sample.calm Sample.rows)).
  unfold wf_datetime. simpl. lia.
Defined.

(** C1. For every list of fetched rows: every item the run sends carries
    the target date and, as [unique_customers], the number of elements of
    the set of the non-null phone numbers of the rows of its shop whose
    [created_at] falls on that date; when the run ends normally the table
    holds such an item for every shop that has a row on the date. *)
Theorem unique_customers_is_distinct_phone_count (rows : list FetchedRow)
    (w : world) :
  let target := target_date (hd_oracle (clock w)) in
  let run := main_df rows w in
  (∀ it, it ∈ issued w run.2 →
     item_date it = target ∧
     unique_customers it =
       Z.of_nat (size (distinct_phones (frame rows) (item_shop_id it) target))) ∧
  (run.1 = Ok tt →
   ∀ shop, (∃ r, r ∈ frame rows ∧ row_of shop target r) →
     ∃ it, table run.2 !! (shop, target) = Some it ∧
           item_shop_id it = shop ∧ item_date it = target ∧
           unique_customers it =
             Z.of_nat (size (distinct_phones (frame rows) shop target))).
Proof.
  cbv zeta. destruct (one_format_or_not rows) as [Hfmt|Hnot].
  - rewrite main_df_parsed by done.
    apply parsed_unique_customers_is_distinct_phone_count.
  - destruct (main_df_stopped rows w Hnot) as (-> & _ & ->).
    split; [by intros it ?%elem_of_nil|done].
Qed.

Lemma unique_customers_is_distinct_phone_count_witness :
  ∃ it, table (main_df Sample.rows (Sample.calm Sample.rows)).2
          !! ("A", Sample.jan20) = Some it ∧
        unique_customers it = 2.
Proof.
  destruct (unique_customers_is_distinct_phone_count Sample.rows
              (Sample.calm Sample.rows)) as [_ Htable].
  destruct (Htable eq_refl "A") as (it & Hit & _ & _ & Hcount).
  - exists (read (Sample.log (Some "A") (Some "+6581234567") Sample.jan20 10)).
    split; [apply list_elem_of_here|]. split; reflexivity.
  - exists it. split; [exact Hit|]. rewrite Hcount. vm_compute. reflexivity.
Defined.

(** C9. A shop that has a row on the target date, all of whose rows on
    that date have a null phone number, still gets its item when the run
    ends normally, with [unique_customers] 0; and no item the run sends has
    a negative [unique_customers]. *)
Theorem null_phones_shop_gets_zero (rows : list FetchedRow) (w : world)
    (shop : string) :
  let target := target_date (hd_oracle (clock w)) in
  let run := main_df rows w in
  (∀ it, it ∈ issued w run.2 → 0 ≤ unique_customers it) ∧
  (run.1 = Ok tt →
   (∃ r, r ∈ frame rows ∧ row_of shop target r) →
   (∀ r, r ∈ frame rows → row_of shop target r → phone_number r = None) →
   ∃ it, it ∈ issued w run.2 ∧ table run.2 !! (shop, target) = Some it ∧
         item_shop_id it = shop ∧ item_date it = target ∧
         unique_customers it = 0).
Proof.
  cbv zeta. destruct (one_format_or_not rows) as [Hfmt|Hnot].
  - rewrite main_df_parsed by done. apply parsed_null_phones_shop_gets_zero.
  - destruct (main_df_stopped rows w Hnot) as (-> & _ & ->).
    split; [by intros it ?%elem_of_nil|done].
Qed.

Lemma null_phones_shop_gets_zero_witness :
  ∃ it, table (main_df Sample.rows3 (Sample.calm Sample.rows3)).2
          !! ("C", Sample.jan20) = Some it ∧
        unique_customers it = 0.
Proof.
  destruct (null_phones_shop_gets_zero Sample.rows3 (Sample.calm Sample.rows3) "C")
    as [_ Hzero].
  destruct Hzero as (it & _ & Hit & _ & _ & Hcount).
  - reflexivity.
  - exists (read (Sample.log (Some "C") None Sample.jan20 10)).
    split; [|split; reflexivity].
    do 3 apply list_elem_of_further. apply list_elem_of_here.
  - intros r Hin [Hshop _]. unfold Sample.rows3, frame in Hin.
    rewrite !fmap_cons in Hin.
    repeat (apply elem_of_cons in Hin as [->|Hin]);
      try reflexivity; try discriminate Hshop.
    by apply elem_of_nil in Hin.
  - exists it. split; [exact Hit|exact Hcount].
Defined.

(** C7. The items are sent in the order in which the shops first appear
    among the rows of the target date: if the first such row of shop [a]
    comes before the first such row of shop [b] in the fetched sequence,
    whenever an item of [b] is sent an item of [a] was sent before it; and
    both are sent when the run ends normally. *)
Theorem upserts_follow_first_appearance (rows : list FetchedRow) (w : world)
    (a b : string) (i j : nat) :
  let target := target_date (hd_oracle (clock w)) in
  let run := main_df rows w in
  first_row (frame rows) a target = Some i →
  first_row (frame rows) b target = Some j →
  (i < j)%nat →
  (∀ pb itb, issued w run.2 !! pb = Some itb → item_shop_id itb = b →
     ∃ pa ita, (pa < pb)%nat ∧ issued w run.2 !! pa = Some ita ∧
               item_shop_id ita = a) ∧
  (run.1 = Ok tt →
     ∃ pa pb ita itb, (pa < pb)%nat ∧
       issued w run.2 !! pa = Some ita ∧ item_shop_id ita = a ∧
       issued w run.2 !! pb = Some itb ∧ item_shop_id itb = b).
Proof.
  cbv zeta. intros Ha Hb Hij.
  destruct (one_format_or_not rows) as [Hfmt|Hnot].
  - rewrite main_df_parsed by done.
    by apply (parsed_upserts_follow_first_appearance _ _ a b i j).
  - destruct (main_df_stopped rows w Hnot) as (-> & _ & ->).
    split; [by intros pb itb ?|done].
Qed.

Lemma upserts_follow_first_appearance_witness :
  item_shop_id <$> issued (Sample.calm Sample.rows3)
    (main_df Sample.rows3 (Sample.calm Sample.rows3)).2 = ["B"; "A"; "C"] ∧
  ∃ pa pb ita itb, (pa < pb)%nat ∧
    issued (Sample.calm Sample.rows3)
      (main_df Sample.rows3 (Sample.calm Sample.rows3)).2 !! pa = Some ita ∧
    item_shop_id ita = "B" ∧
    issued (Sample.calm Sample.rows3)
      (main_df Sample.rows3 (Sample.calm Sample.rows3)).2 !! pb = Some itb ∧
    item_shop_id itb = "C".
Proof.
  split; [reflexivity|].
  apply (upserts_follow_first_appearance Sample.rows3
           (Sample.calm Sample.rows3) "B" "C" 0 3).
  - reflexivity.
  - reflexivity.
  - lia.
  - reflexivity.
Defined.

(** C5. If the request for some shop raises, the run ends with that
    exception: the items of the shops before it were sent and stay in the
    table, the failing request was sent once, and nothing is sent for the
    shops after it, whose keys hold what they held before the run.  A
    request is sent only once line 132 has read the timestamps, which it
    does when they are written in one format. *)
Theorem failed_upsert_keeps_prefix (rows : list FetchedRow) (w : world)
    (k : nat) :
  let target := target_date (hd_oracle (clock w)) in
  let shops := shops_of (frame rows) target in
  let items := summaries (frame rows) target (tl_oracle (clock w)) shops in
  let run := main_df rows w in
  one_format rows →
  (k < length shops)%nat →
  put_item_raises w k = true →
  (∀ j, (j < k)%nat → put_item_raises w j = false) →
  run.1 = Raise ClientError ∧
  issued w run.2 = take (S k) items ∧
  item_shop_id <$> issued w run.2 = take (S k) shops ∧
  table run.2 = foldl upsert (table w) (take k items) ∧
  (∀ j shop, shops !! j = Some shop →
     table run.2 !! (shop, target) =
     if decide (j < k)%nat
     then Some (summary (frame rows) target (tl_oracle (clock w) j) shop)
     else table w !! (shop, target)).
Proof.
  cbv zeta. intros Hfmt Hk Hraise Hbefore.
  rewrite main_df_parsed by done.
  by apply parsed_failed_upsert_keeps_prefix.
Qed.

Lemma failed_upsert_keeps_prefix_witness :
  let w := Sample.failing Sample.rows3 1 in
  let run := main_df Sample.rows3 w in
  run.1 = Raise ClientError ∧
  item_shop_id <$> issued w run.2 = ["B"; "A"] ∧
  (item_shop_id <$> (map_to_list (table run.2)).*2) = ["B"].
Proof.
  cbv zeta.
  destruct (failed_upsert_keeps_prefix Sample.rows3
              (Sample.failing Sample.rows3 1) 1)
    as (Hraise & _ & Hshops & Htable & _).
  - exists Sample.seconds. repeat constructor.
  - vm_compute. lia.
  - reflexivity.
  - intros j Hj. assert (j = 0)%nat as -> by lia. reflexivity.
  - split; [exact Hraise|]. split; [rewrite Hshops; reflexivity|].
    rewrite Htable. vm_compute. reflexivity.
Defined.

(** *** Running twice *)

(** C3, as stated, fails: the item a run stores carries the instant of its
    writing, so that a second run over the same rows and for the same
    target date leaves a different record for shop A. *)
Lemma rerun_changes_updated_at :
  (main_df Sample.rows (Sample.calm Sample.rows)).1 = Ok tt ∧
  (main_df Sample.rows Sample.once).1 = Ok tt ∧
  target_date (hd_oracle (clock Sample.once)) =
    target_date (hd_oracle (clock (Sample.calm Sample.rows))) ∧
  table Sample.twice !! ("A", Sample.jan20) ≠
    table Sample.once !! ("A", Sample.jan20).
Proof.
  split; [reflexivity|]. split; [reflexivity|]. split; [reflexivity|].
  vm_compute. intros [=].
Qed.

(** C3, amended. When a run has ended normally, a second run over the
    same rows for the same target date leaves, under every key, a summary
    with the same shop, date and count: it overwrites and does not
    accumulate.  Only [updated_at] changes, to the instant of the second
    writing, for the shops the second run gets to. *)
Theorem rerun_keeps_counts (rows : list FetchedRow) (w : world) :
  let run1 := main_df rows w in
  let run2 := main_df rows run1.2 in
  let target := target_date (hd_oracle (clock w)) in
  run1.1 = Ok tt →
  target_date (hd_oracle (clock run1.2)) = target →
  summary_core <$> table run2.2 = summary_core <$> table run1.2 ∧
  (run2.1 = Ok tt →
   ∀ j shop, shops_of (frame rows) target !! j = Some shop →
     table run2.2 !! (shop, target) =
     Some (summary (frame rows) target (tl_oracle (clock run1.2) j) shop)).
Proof.
  cbv zeta. destruct (one_format_or_not rows) as [Hfmt|Hnot].
  - rewrite !main_df_parsed by done. apply parsed_rerun_keeps_counts.
  - destruct (main_df_stopped rows w Hnot) as (-> & _ & _). done.
Qed.

Lemma rerun_keeps_counts_witness :
  summary_core <$> table Sample.twice = summary_core <$> table Sample.once ∧
  (unique_customers <$> table Sample.twice !! ("A", Sample.jan20)) = Some 2.
Proof.
  destruct (rerun_keeps_counts Sample.rows (Sample.calm Sample.rows))
    as [Hcore Hitem]; [reflexivity|reflexivity|].
  split; [exact Hcore|].
  pose proof (Hitem eq_refl 0%nat "A" eq_refl) as HA.
  change (table Sample.twice !! ("A", Sample.jan20) =
          Some (summary (frame Sample.rows) Sample.jan20
                  (tl_oracle (clock Sample.once) 0) "A")) in HA.
  rewrite HA. vm_compute. reflexivity.
Defined.

(** *** Runs that have nothing to do *)

(** C6, as stated, fails: no row of [Sample.stale] is of the target date,
    and yet the run does not end normally: the two timestamps are written
    in different formats and line 132 raises before the date is chosen;
    nothing is printed. *)
Lemma no_target_rows_can_raise :
  Forall (λ r, ¬ on_date (target_date (hd_oracle (clock (Sample.calm Sample.stale)))) r)
    (frame Sample.stale) ∧
  (main_df Sample.stale (Sample.calm Sample.stale)).1 = Raise ValueError ∧
  stdout (main_df Sample.stale (Sample.calm Sample.stale)).2 = [].
Proof.
  split; [|split; reflexivity].
  repeat constructor; vm_compute; intros [=].
Qed.

(** C6, amended. If no row was fetched, or no fetched row is of the target
    date, then: when the timestamps are written in one format the run ends
    normally, sends no item, leaves the table as it was and its last line
    says that there is no data; when they are not, line 132 raises
    [ValueError] and the run has done nothing at all. *)
Theorem no_rows_is_normal_end (rows : list FetchedRow) (w : world) :
  let target := target_date (hd_oracle (clock w)) in
  let run := main_df rows w in
  rows = [] ∨ Forall (λ r, ¬ on_date target r) (frame rows) →
  (one_format rows →
   run.1 = Ok tt ∧ issued w run.2 = [] ∧ calls run.2 = calls w ∧
   table run.2 = table w ∧
   stdout run.2 =
     match rows with
     | [] => stdout w ++ [NoDataReturned]
     | _ :: _ => stdout (dated w) ++ [NoDataForTargetDate target]
     end) ∧
  (¬ one_format rows → run.1 = Raise ValueError ∧ run.2 = w).
Proof.
  cbv zeta. intros Hnone. split.
  - intros Hfmt. rewrite main_df_parsed by done.
    destruct (parsed_no_rows_is_normal_end (frame rows) w) as (? & ? & ? & ? & Hout).
    { destruct Hnone as [->|Hnone]; [by left|by right]. }
    repeat (split; [done|]). rewrite Hout. by destruct rows.
  - intros Hnot. by rewrite main_df_error.
Qed.

Lemma no_rows_is_normal_end_witness :
  let df := [Sample.log (Some "B") (Some "+6581111111") Sample.jan19 10] in
  let run := main_df df (Sample.calm df) in
  run.1 = Ok tt ∧ issued (Sample.calm df) run.2 = [] ∧ calls run.2 = [] ∧
  table run.2 = ∅ ∧
  stdout run.2 = [ComputingYesterday Sample.jan20 0;
                  NoDataForTargetDate Sample.jan20].
Proof.
  cbv zeta.
  apply (no_rows_is_normal_end
           [Sample.log (Some "B") (Some "+6581111111") Sample.jan19 10]
           (Sample.calm [Sample.log (Some "B") (Some "+6581111111") Sample.jan19 10])).
  - right. constructor; [|constructor].
    vm_compute. intros [=].
  - exists Sample.seconds. repeat constructor.
Defined.

(** *** Rows with a null field *)

Lemma frame_without (l1 l2 : list FetchedRow) r :
  frame (l1 ++ r :: l2) = frame l1 ++ read r :: frame l2 ∧
  frame (l1 ++ l2) = frame l1 ++ frame l2.
Proof. unfold frame. by rewrite !fmap_app, fmap_cons. Qed.

Lemma one_format_without (l1 l2 : list FetchedRow) r :
  one_format (l1 ++ r :: l2) → one_format (l1 ++ l2).
Proof.
  intros [f Hf]. exists f.
  apply Forall_app in Hf as [H1 H2]. apply Forall_cons in H2 as [_ H2].
  by apply Forall_app.
Qed.

(** C4, as stated, fails for the row without shop: every fetched row has
    its timestamp read at line 132, before the rows are told apart by date
    or shop.  With the row without shop, whose timestamp is written with a
    fraction of a second, the run raises [ValueError] and stores nothing;
    without it the run ends normally and stores the summary of shop A. *)
Lemma null_shop_row_can_stop_the_run :
  fetched_shop_id <$> Sample.with_orphan !! 1%nat = Some None ∧
  (main_df Sample.with_orphan (Sample.calm Sample.with_orphan)).1
    = Raise ValueError ∧
  table (main_df Sample.with_orphan (Sample.calm Sample.with_orphan)).2 = ∅ ∧
  (main_df (take 1 Sample.with_orphan) (Sample.calm Sample.with_orphan)).1
    = Ok tt ∧
  unique_customers <$>
    table (main_df (take 1 Sample.with_orphan)
             (Sample.calm Sample.with_orphan)).2 !! ("A", Sample.jan20)
    = Some 1.
Proof. repeat split; vm_compute; reflexivity. Qed.

(** C4, amended. A row whose phone number is null adds nothing to the
    count of any shop on any date; a row whose shop is null belongs to no
    partition, and when the timestamps of the fetched rows, its own
    included, are written in one format, the run ends, sends and stores
    exactly what it would without it.  When they are not, the run with the
    row raises [ValueError] at line 132 and does nothing. *)
Theorem null_fields_do_not_count (l1 l2 : list FetchedRow) (r : FetchedRow) :
  (fetched_phone_number r = None →
   ∀ target shop,
     count_unique_customers
       (filter (on_date target) (frame (l1 ++ r :: l2))) shop =
     count_unique_customers
       (filter (on_date target) (frame (l1 ++ l2))) shop) ∧
  (fetched_shop_id r = None →
   (∀ target shop,
      (read r ∉ filter (of_shop shop)
                  (filter (on_date target) (frame (l1 ++ r :: l2)))) ∧
      filter (of_shop shop) (filter (on_date target) (frame (l1 ++ r :: l2))) =
      filter (of_shop shop) (filter (on_date target) (frame (l1 ++ l2)))) ∧
   (one_format (l1 ++ r :: l2) →
    ∀ w,
      (main_df (l1 ++ r :: l2) w).1 = (main_df (l1 ++ l2) w).1 ∧
      calls (main_df (l1 ++ r :: l2) w).2 = calls (main_df (l1 ++ l2) w).2 ∧
      table (main_df (l1 ++ r :: l2) w).2 = table (main_df (l1 ++ l2) w).2) ∧
   (¬ one_format (l1 ++ r :: l2) →
    ∀ w, main_df (l1 ++ r :: l2) w = (Raise ValueError, w))).
Proof.
  destruct (frame_without l1 l2 r) as [-> ->].
  destruct (parsed_null_fields_do_not_count (frame l1) (frame l2) (read r))
    as [Hphone Hshop].
  split; [exact Hphone|].
  intros Hnull. destruct (Hshop Hnull) as [Hpart Hrun].
  split; [exact Hpart|]. split.
  - intros Hfmt w.
    rewrite (main_df_parsed (l1 ++ r :: l2)) by done.
    rewrite (main_df_parsed (l1 ++ l2)) by by eapply one_format_without.
    destruct (frame_without l1 l2 r) as [-> ->]. apply Hrun.
  - intros Hnot w. by apply main_df_error.
Qed.

Lemma null_fields_do_not_count_witness :
  count_unique_customers
    (filter (on_date Sample.jan20) (frame Sample.rows3)) "A" = 1%nat ∧
  calls (main_df Sample.rows3 (Sample.calm Sample.rows3)).2 =
  calls (main_df
     ([Sample.log (Some "B") (Some "+6581111111") Sample.jan20 8] ++
      drop 2 Sample.rows3) (Sample.calm Sample.rows3)).2.
Proof.
  split.
  - change Sample.rows3 with (take 5 Sample.rows3 ++
      Sample.log (Some "A") None Sample.jan20 12 :: []).
    rewrite (proj1 (null_fields_do_not_count (take 5 Sample.rows3) []
      (Sample.log (Some "A") None Sample.jan20 12))) by reflexivity.
    vm_compute. reflexivity.
  - change Sample.rows3 with
      ([Sample.log (Some "B") (Some "+6581111111") Sample.jan20 8] ++
       Sample.log None (Some "+6582222222") Sample.jan20 9 :: drop 2 Sample.rows3)
      at 1.
    apply (null_fields_do_not_count
      [Sample.log (Some "B") (Some "+6581111111") Sample.jan20 8]
      (drop 2 Sample.rows3)
      (Sample.log None (Some "+6582222222") Sample.jan20 9)).
    + reflexivity.
    + exists Sample.seconds. repeat constructor.
Defined.

End AnalyticsFacts.

(** ** Facts about generate_test_data.py *)

Module GenerateFacts.
Import GenerateTestData Gen PyFacts.

Lemma filled_refl w : filled w w [].
Proof. unfold filled. by rewrite app_nil_r. Qed.

Lemma filled_trans w1 w2 w3 rows1 rows2 :
  filled w1 w2 rows1 → filled w2 w3 rows2 → filled w1 w3 (rows1 ++ rows2).
Proof.
  unfold filled. intros (?&?&?&?&?&?&?&Ha) (?&?&?&?&?&?&?&Hb).
  repeat split; try congruence. by rewrite Hb, Ha, app_assoc.
Qed.

Lemma randint_in_range a b w :
  a ≤ b →
  ∃ x, a ≤ x ≤ b ∧
       randint a b w = (Ok x, set_random_draws (tl_oracle (random_draws w)) w).
Proof.
  intros Hab. exists (a + hd_oracle (random_draws w) `mod` (b - a + 1)).
  split.
  - pose proof (Z.mod_pos_bound (hd_oracle (random_draws w)) (b - a + 1)). lia.
  - unfold randint. destruct (b <? a) eqn:E; [lia|]. reflexivity.
Qed.

Lemma randint_empty a b w : b < a → randint a b w = (Raise ValueError, w).
Proof. intros Hab. unfold randint. destruct (b <? a) eqn:E; [done|lia]. Qed.

Lemma choice_in {A} (seq : list A) w :
  seq ≠ [] →
  ∃ x, x ∈ seq ∧
       choice seq w = (Ok x, set_random_draws (tl_oracle (random_draws w)) w).
Proof.
  intros Hne. destruct seq as [|x0 seq]; [done|].
  set (l := x0 :: seq).
  exists (nth (Z.to_nat (hd_oracle (random_draws w) `mod` Z.of_nat (length l))) l x0).
  split; [|reflexivity].
  apply list_elem_of_In, nth_In.
  pose proof (Z.mod_pos_bound (hd_oracle (random_draws w)) (Z.of_nat (length l))).
  simpl length in *. lia.
Qed.

(** One row is appended; the pool is never empty in the generator. *)
Lemma append_log_run date shop phones w :
  phones ≠ [] →
  ∃ r w', append_log date shop phones w = (Ok tt, w') ∧
          filled w w' [r] ∧ synthetic date shop phones r.
Proof.
  intros Hne. unfold append_log.
  destruct (randint_in_range 0 23 w) as (h & Hh & Eh); [lia|].
  set (w1 := set_random_draws (tl_oracle (random_draws w)) w) in *.
  destruct (randint_in_range 0 59 w1) as (m & Hm & Em); [lia|].
  set (w2 := set_random_draws (tl_oracle (random_draws w1)) w1) in *.
  destruct (randint_in_range 0 59 w2) as (s & Hs & Es); [lia|].
  set (w3 := set_random_draws (tl_oracle (random_draws w2)) w2) in *.
  destruct (choice_in phones w3 Hne) as (p & Hp & Ep).
  set (w4 := set_random_draws (tl_oracle (random_draws w3)) w3) in *.
  eexists _, _. split; [|split].
  - unfold mbind, M_bind. rewrite Eh, Em, Es, Ep. reflexivity.
  - unfold filled. simpl. repeat split; reflexivity.
  - unfold synthetic. simpl. split; [done|]. split; [by exists p|].
    split; [done|]. exists h, m, s. split; [reflexivity|lia].
Qed.

(** [for _ in range(num_logs)]: exactly [num_logs] rows are appended. *)
Lemma append_logs_run date shop phones (n : nat) w (js : list Z) :
  phones ≠ [] → length js = n →
  ∃ rows w',
    for_ js (λ _, append_log date shop phones) w = (Ok tt, w') ∧
    filled w w' rows ∧ length rows = n ∧
    Forall (synthetic date shop phones) rows.
Proof.
  intros Hne. revert n w. induction js as [|j js IH]; intros n w Hlen.
  - exists [], w. simpl in Hlen. subst n.
    split; [done|]. split; [apply filled_refl|]. split; [done|constructor].
  - destruct (append_log_run date shop phones w Hne) as (r & w1 & E1 & F1 & S1).
    destruct n as [|n]; [done|]. simpl in Hlen.
    destruct (IH n w1) as (rows & w2 & E2 & F2 & L2 & S2); [lia|].
    exists (r :: rows), w2. split; [|split; [|split]].
    + simpl. unfold mbind, M_bind. rewrite E1. exact E2.
    + apply (filled_trans _ _ _ [r] rows F1 F2).
    + simpl. by rewrite L2.
    + by constructor.
Qed.

Lemma range_length n : length (range n) = Z.to_nat n.
Proof. unfold range. by rewrite length_fmap, length_seq. Qed.

(** One shop on one day: between 5 and [num_logs_per_shop] rows. *)
Lemma shop_day_run n date phones shop w :
  phones ≠ [] → 5 ≤ n →
  ∃ rows w',
    shop_day n date phones shop w = (Ok tt, w') ∧ filled w w' rows ∧
    (5 ≤ length rows ≤ Z.to_nat n)%nat ∧
    Forall (synthetic date shop phones) rows.
Proof.
  intros Hne Hn. unfold shop_day.
  destruct (randint_in_range 5 n w Hn) as (k & Hk & Ek).
  set (w1 := set_random_draws (tl_oracle (random_draws w)) w) in *.
  destruct (append_logs_run date shop phones (Z.to_nat k) w1 (range k) Hne
              (range_length k)) as (rows & w2 & E & F & L & S).
  exists rows, w2. split; [|split; [|split]].
  - unfold mbind, M_bind. rewrite Ek. exact E.
  - destruct F as (?&?&?&?&?&?&?&?). unfold filled. simpl in *. done.
  - lia.
  - done.
Qed.

(** With fewer than 5 rows allowed the draw raises, and nothing changes. *)
Lemma shop_day_raises n date phones shop w :
  n < 5 → shop_day n date phones shop w = (Raise ValueError, w).
Proof.
  intros Hn. unfold shop_day, mbind, M_bind. by rewrite randint_empty.
Qed.

Lemma day_run n date phones shops w :
  phones ≠ [] → 5 ≤ n →
  ∃ blocks w',
    for_ shops (shop_day n date phones) w = (Ok tt, w') ∧
    filled w w' (concat blocks) ∧ day_blocks n date phones shops blocks.
Proof.
  intros Hne Hn. revert w. induction shops as [|shop shops IH]; intros w.
  - exists [], w. split; [done|]. split; [apply filled_refl|constructor].
  - destruct (shop_day_run n date phones shop w Hne Hn)
      as (rows & w1 & E1 & F1 & L1 & S1).
    destruct (IH w1) as (blocks & w2 & E2 & F2 & B2).
    exists (rows :: blocks), w2. split; [|split].
    + simpl. unfold mbind, M_bind. rewrite E1. exact E2.
    + simpl. by apply (filled_trans _ w1).
    + by constructor.
Qed.

Lemma day_raises n date phones shops w :
  n < 5 → shops ≠ [] →
  for_ shops (shop_day n date phones) w = (Raise ValueError, w).
Proof.
  intros Hn Hne. destruct shops as [|shop shops]; [done|].
  simpl. unfold mbind, M_bind. by rewrite shop_day_raises.
Qed.

Lemma days_run n now phones shops offsets w :
  phones ≠ [] → 5 ≤ n →
  ∃ days w',
    for_ offsets (λ day_offset,
      for_ shops (shop_day n
        (dt_date (datetime_sub now (timedelta_days day_offset))) phones)) w
      = (Ok tt, w') ∧
    filled w w' (concat (concat days)) ∧
    all_blocks n now phones shops offsets days.
Proof.
  intros Hne Hn. revert w. induction offsets as [|k offsets IH]; intros w.
  - exists [], w. split; [done|]. split; [apply filled_refl|constructor].
  - destruct (day_run n (dt_date (datetime_sub now (timedelta_days k)))
                phones shops w Hne Hn) as (blocks & w1 & E1 & F1 & B1).
    destruct (IH w1) as (days & w2 & E2 & F2 & D2).
    exists (blocks :: days), w2. split; [|split].
    + rewrite AnalyticsFacts.for_cons. cbv beta. rewrite E1. exact E2.
    + simpl. rewrite concat_app. by apply (filled_trans _ w1).
    + by constructor.
Qed.

Lemma fill_all_data_run n days_back now shops phones w :
  phones ≠ [] → 5 ≤ n →
  ∃ days w',
    fill_all_data n days_back now shops phones w = (Ok tt, w') ∧
    filled w w' (concat (concat days)) ∧
    all_blocks n now phones shops (range (days_back + 1)) days.
Proof. intros Hne Hn. by apply days_run. Qed.

Lemma fill_all_data_raises n days_back now shops phones w :
  n < 5 → shops ≠ [] → 0 ≤ days_back →
  fill_all_data n days_back now shops phones w = (Raise ValueError, w).
Proof.
  intros Hn Hne Hd. unfold fill_all_data.
  destruct (range (days_back + 1)) as [|k offsets] eqn:E.
  - apply (f_equal length) in E. rewrite range_length in E. simpl in E. lia.
  - rewrite AnalyticsFacts.for_cons. cbv beta. by rewrite day_raises.
Qed.

(** Nothing is generated when there is no shop or no day. *)
Lemma fill_all_data_nothing n days_back now shops phones w :
  shops = [] ∨ days_back < 0 →
  fill_all_data n days_back now shops phones w = (Ok tt, w).
Proof.
  intros [->|Hd]; unfold fill_all_data.
  - induction (range (days_back + 1)) as [|k offsets IH]; [done|].
    simpl. unfold mbind, M_bind. simpl. exact IH.
  - assert (range (days_back + 1) = []) as ->; [|done].
    apply length_zero_iff_nil. rewrite range_length. lia.
Qed.

(** *** Before the loops *)

Lemma truthy_or_else a b : truthy (or_else a b) = truthy a || truthy b.
Proof. unfold or_else. by destruct (truthy a) eqn:E; [rewrite E|]. Qed.

Lemma get_supabase_client_eq w :
  get_supabase_client w =
  if credentials (environ w) then (Ok tt, w) else (Raise RuntimeError, w).
Proof.
  unfold get_supabase_client, getenv, get, mbind, M_bind, credentials.
  cbv beta iota. rewrite truthy_or_else.
  destruct (truthy (environ w !! "SUPABASE_URL"));
    destruct (truthy (environ w !! "SUPABASE_SERVICE_ROLE_KEY"));
    destruct (truthy (environ w !! "SUPABASE_ANON_KEY")); reflexivity.
Qed.

Lemma quiet_refl w : quiet w w.
Proof. by unfold quiet. Qed.

Lemma quiet_trans w1 w2 w3 : quiet w1 w2 → quiet w2 w3 → quiet w1 w3.
Proof.
  unfold quiet. intros (?&?&?&?) (?&?&?&?). repeat split; congruence.
Qed.

Lemma filled_quiet w w' rows : filled w w' rows → quiet w w'.
Proof. unfold filled, quiet. intros (?&?&?&?&?&?&?&?). done. Qed.

(** [[str(uuid.uuid4()) for _ in range(n)]]: [n] identifiers; the clock and
    the random generator are left alone. *)
Lemma uuid4s_run (n : nat) w :
  ∃ ids w', replicateM n uuid4 w = (Ok ids, w') ∧ length ids = n ∧
            quiet w w' ∧ clock w' = clock w ∧
            random_draws w' = random_draws w.
Proof.
  revert w. induction n as [|n IH]; intros w.
  - exists [], w. split; [done|]. split; [done|]. split; [apply quiet_refl|done].
  - destruct (IH (set_uuid4_draws (tl_oracle (uuid4_draws w)) w))
      as (ids & w' & E & L & Q & C & R).
    exists (hd_oracle (uuid4_draws w) :: ids), w'.
    split; [|split; [|split; [|split]]].
    + simpl. unfold mbind, M_bind, uuid4 at 1, get, modify. simpl.
      unfold mbind, M_bind. simpl. rewrite E. reflexivity.
    + simpl. by rewrite L.
    + destruct Q as (?&?&?&?). unfold quiet. simpl in *. done.
    + done.
    + done.
Qed.

(** The pool of phone numbers: [n] numbers of the Singapore form; only
    random numbers are consumed. *)
Lemma phone_numbers_run (n : nat) w :
  ∃ phones w',
    replicateM n (x ← randint 80000000 99999999;
                  mret ("+65" +:+ str_of_int x)) w = (Ok phones, w') ∧
    length phones = n ∧ Forall sg_phone phones ∧
    quiet w w' ∧ clock w' = clock w.
Proof.
  revert w. induction n as [|n IH]; intros w.
  - exists [], w. split; [done|]. split; [done|]. split; [constructor|].
    split; [apply quiet_refl|done].
  - destruct (randint_in_range 80000000 99999999 w) as (x & Hx & Ex); [lia|].
    destruct (IH (set_random_draws (tl_oracle (random_draws w)) w))
      as (phones & w' & E & L & P & Q & C).
    exists (("+65" +:+ str_of_int x) :: phones), w'.
    split; [|split; [|split; [|split]]].
    + simpl. unfold mbind at 1 2, M_bind at 1 2. unfold mbind at 1, M_bind at 1.
      rewrite Ex. unfold mret at 1, M_ret at 1. cbv beta iota.
      rewrite E. reflexivity.
    + simpl. by rewrite L.
    + constructor; [by exists x|done].
    + destruct Q as (?&?&?&?). unfold quiet. simpl in *. done.
    + done.
Qed.

(** *** The batches *)

Lemma bind_eq {W A B} (c : Py.M W A) (f : A → Py.M W B) w :
  (c ≫= f) w =
  match c w with
  | (Ok a, w') => f a w'
  | (Raise e, w') => (Raise e, w')
  end.
Proof. reflexivity. Qed.

Lemma get_eq {A} (f : world → A) w : get f w = (Ok (f w), w).
Proof. reflexivity. Qed.

Lemma modify_eq f w : modify f w = (Ok tt, f w).
Proof. reflexivity. Qed.

Lemma print_eq m w : print m w = (Ok tt, set_stdout (stdout w ++ [m]) w).
Proof. reflexivity. Qed.

Lemma datetime_now_eq w :
  datetime_now w = (Ok (hd_oracle (clock w)), set_clock (tl_oracle (clock w)) w).
Proof. reflexivity. Qed.

(** One batch: the insert is attempted once and, whatever it does, the
    step ends normally. *)
Lemma insert_batch_run batch_size i w :
  ∃ w',
    insert_batch batch_size i w = (Ok tt, w') ∧
    environ w' = environ w ∧ all_data w' = all_data w ∧
    inserts w' = inserts w ++ [take batch_size (drop i (all_data w))] ∧
    insert_outcomes w' = tl_oracle (insert_outcomes w) ∧
    total_inserted w' =
      (total_inserted w +
       credited (take batch_size (drop i (all_data w)))
         (hd_oracle (insert_outcomes w)))%nat.
Proof.
  unfold insert_batch. rewrite bind_eq. unfold get at 1. cbv beta iota.
  unfold try_except, insert_execute.
  rewrite !bind_eq. unfold get at 1. cbv beta iota.
  rewrite bind_eq. unfold modify at 1. cbv beta iota.
  destruct (hd_oracle (insert_outcomes w)) as [e|[[|r rs]|]] eqn:Ho.
  - unfold raise. cbv beta iota.
    destruct (take batch_size (drop i (all_data w))) as [|r0 b] eqn:Hb;
      eexists; (split; [reflexivity|]); simpl; rewrite ?Nat.add_0_r; done.
  - eexists. split; [reflexivity|]. simpl. rewrite ?Nat.add_0_r. done.
  - eexists. split; [reflexivity|]. simpl. done.
  - eexists. split; [reflexivity|]. simpl. done.
Qed.

Lemma reported_ext o1 o2 bs :
  (∀ k, o1 k = o2 k) → reported o1 bs = reported o2 bs.
Proof.
  revert o1 o2. induction bs as [|b bs IH]; intros o1 o2 Ho; [done|].
  simpl. unfold hd_oracle. rewrite Ho. f_equal.
  apply IH. intros k. unfold tl_oracle. apply Ho.
Qed.

(** The loop over the batches: every batch is sent, in order, and the
    loop ends normally whatever the inserts do. *)
Lemma insert_loop_run batch_size (starts : list nat) w :
  ∃ w',
    for_ starts (insert_batch batch_size) w = (Ok tt, w') ∧
    environ w' = environ w ∧ all_data w' = all_data w ∧
    inserts w' = inserts w ++
      ((λ i, take batch_size (drop i (all_data w))) <$> starts) ∧
    (∀ k, insert_outcomes w' k = insert_outcomes w (length starts + k)%nat) ∧
    total_inserted w' =
      (total_inserted w +
       reported (insert_outcomes w)
         ((λ i, take batch_size (drop i (all_data w))) <$> starts))%nat.
Proof.
  revert w. induction starts as [|i starts IH]; intros w.
  - exists w. simpl. rewrite app_nil_r, Nat.add_0_r. done.
  - destruct (insert_batch_run batch_size i w)
      as (w1 & E1 & Henv1 & Hall1 & Hins1 & Hout1 & Htot1).
    destruct (IH w1) as (w2 & E2 & Henv2 & Hall2 & Hins2 & Hout2 & Htot2).
    exists w2. split; [|split; [|split; [|split; [|split]]]].
    + rewrite AnalyticsFacts.for_cons, E1. exact E2.
    + congruence.
    + congruence.
    + rewrite Hins2, Hins1, Hall1, fmap_cons, <- app_assoc. done.
    + intros k. rewrite Hout2, Hout1. unfold tl_oracle. simpl. done.
    + rewrite Htot2, Htot1, Hall1, Hout1, fmap_cons. simpl. lia.
Qed.

(** Cutting a list into batches loses and repeats nothing. *)
Lemma batches_from (step : nat) (all : list LogRecord) (a n : nat) :
  concat ((λ i, take step (drop i all)) <$>
            ((λ k, k * step)%nat <$> seq a n)) =
  take (n * step) (drop (a * step) all).
Proof.
  revert a. induction n as [|n IH]; intros a; [done|].
  simpl seq. rewrite !fmap_cons. simpl concat. rewrite IH.
  replace (S n * step)%nat with (step + n * step)%nat by lia.
  rewrite <- take_take_drop, drop_drop. do 3 f_equal. lia.
Qed.

Lemma concat_batches (step : nat) (all : list LogRecord) :
  (0 < step)%nat → concat (batches step all) = all.
Proof.
  intros Hstep. unfold batches, range_step. rewrite batches_from.
  rewrite drop_0. apply take_ge.
  pose proof (Nat.div_mod (length all + step - 1) step ltac:(lia)) as Hdiv.
  pose proof (Nat.mod_upper_bound (length all + step - 1) step ltac:(lia)).
  nia.
Qed.

Lemma length_batches (step : nat) (all : list LogRecord) :
  length (batches step all) = ((length all + step - 1) / step)%nat.
Proof. unfold batches, range_step. by rewrite !length_fmap, length_seq. Qed.

(** Every batch holds at least one row and at most [step]. *)
Lemma batches_sizes (step : nat) (all : list LogRecord) :
  (0 < step)%nat →
  Forall (λ b, (1 ≤ length b ≤ step)%nat) (batches step all).
Proof.
  intros Hstep. apply Forall_forall. intros b Hb.
  unfold batches, range_step in Hb.
  apply list_elem_of_fmap in Hb as (i & -> & Hi).
  apply list_elem_of_fmap in Hi as (k & -> & Hk).
  apply elem_of_seq in Hk as [_ Hk].
  rewrite length_take, length_drop.
  pose proof (Nat.div_mod (length all + step - 1) step ltac:(lia)) as Hdiv.
  pose proof (Nat.mod_upper_bound (length all + step - 1) step ltac:(lia)).
  nia.
Qed.

(** *** The whole function *)

Lemma shop_ids_run num_shops shop_id w :
  ∃ ids w',
    (if truthy shop_id then mret (option_list shop_id)
     else replicateM (Z.to_nat num_shops) uuid4) w = (Ok ids, w') ∧
    shop_ids_for num_shops shop_id ids ∧
    quiet w w' ∧ clock w' = clock w ∧ random_draws w' = random_draws w.
Proof.
  unfold shop_ids_for. destruct (truthy shop_id).
  - exists (option_list shop_id), w. split; [done|]. split; [done|].
    split; [apply quiet_refl|done].
  - destruct (uuid4s_run (Z.to_nat num_shops) w) as (ids & w' & E & L & Q & C).
    by exists ids, w'.
Qed.

(** With credentials, the function draws its shops and its pool of 50
    phone numbers, reads the clock once, and goes on to the loops and the
    closing part in a world where nothing was sent or printed. *)
Lemma generate_test_data_eq num_shops n days_back shop_id w :
  credentials (environ w) = true →
  ∃ shop_ids phones w3,
    generate_test_data num_shops n days_back shop_id w =
      (fill_all_data n days_back (hd_oracle (clock w)) shop_ids phones ;;
       closing num_shops days_back shop_ids) w3 ∧
    shop_ids_for num_shops shop_id shop_ids ∧
    length phones = 50%nat ∧ Forall sg_phone phones ∧
    quiet w w3 ∧ all_data w3 = [].
Proof.
  intros Hcred. unfold generate_test_data.
  rewrite bind_eq, get_supabase_client_eq, Hcred.
  destruct (shop_ids_run num_shops shop_id w)
    as (ids & w1 & E1 & Hids & Q1 & C1 & _).
  rewrite bind_eq, E1.
  destruct (phone_numbers_run 50 w1) as (phones & w2 & E2 & L2 & P2 & Q2 & C2).
  rewrite bind_eq, E2.
  rewrite bind_eq, datetime_now_eq. cbv beta iota.
  rewrite bind_eq, modify_eq. cbv beta iota.
  assert (Hclock : hd_oracle (clock w2) = hd_oracle (clock w)) by congruence.
  rewrite Hclock.
  exists ids, phones, (set_all_data [] (set_clock (tl_oracle (clock w2)) w2)).
  split; [reflexivity|]. split; [done|]. split; [done|]. split; [done|].
  split; [|done].
  apply (quiet_trans _ w1); [done|]. apply (quiet_trans _ w2); [done|].
  by unfold quiet.
Qed.

(** The closing part never raises: it sends every batch of 100 rows of
    [all_data], in order, and counts what the answers report. *)
Lemma closing_run num_shops days_back ids w :
  ∃ w',
    closing num_shops days_back ids w = (Ok tt, w') ∧
    all_data w' = all_data w ∧ environ w' = environ w ∧
    inserts w' = inserts w ++ batches 100 (all_data w) ∧
    total_inserted w' = reported (insert_outcomes w) (batches 100 (all_data w)) ∧
    (all_data w = [] →
     stdout w' = stdout w ++ [Generating 0 num_shops days_back; NoDataGenerated]).
Proof.
  unfold closing. cbv zeta.
  rewrite bind_eq, modify_eq. cbv beta iota.
  rewrite bind_eq, get_eq. cbv beta iota.
  rewrite bind_eq, print_eq. cbv beta iota.
  change (all_data (set_total_inserted 0 w)) with (all_data w).
  set (w6 := set_stdout _ (set_total_inserted 0 w)).
  assert (Hw6 : all_data w6 = all_data w ∧ environ w6 = environ w ∧
                inserts w6 = inserts w ∧ total_inserted w6 = 0%nat ∧
                insert_outcomes w6 = insert_outcomes w ∧
                stdout w6 = stdout w ++
                  [Generating (length (all_data w)) num_shops days_back]).
  { subst w6. simpl. done. }
  destruct Hw6 as (Hall6 & Henv6 & Hins6 & Htot6 & Hout6 & Hstd6).
  clearbody w6.
  destruct (all_data w) as [|first rest] eqn:Hall.
  - eexists. split; [apply print_eq|]. simpl.
    rewrite Hall6, Hstd6, <- app_assoc. unfold batches. simpl.
    rewrite app_nil_r. done.
  - rewrite bind_eq, print_eq. cbv beta iota.
    set (w7 := set_stdout _ w6).
    destruct (insert_loop_run 100 (range_step (length (first :: rest)) 100) w7)
      as (w8 & E8 & Henv8 & Hall8 & Hins8 & _ & Htot8).
    rewrite bind_eq, E8. cbv beta iota.
    rewrite bind_eq, get_eq. cbv beta iota.
    rewrite bind_eq, print_eq. cbv beta iota.
    rewrite bind_eq, print_eq. cbv beta iota.
    eexists. split; [apply print_eq|]. simpl.
    subst w7. simpl in Henv8, Hall8, Hins8, Htot8.
    rewrite Hall6 in Hall8, Hins8, Htot8.
    split; [done|]. split; [congruence|].
    unfold batches. split; [|split; [|done]].
    + by rewrite Hins8, Hins6.
    + by rewrite Htot8, Htot6, Hout6.
Qed.

(** The three ways the function can go once it has its credentials. *)
Lemma generate_test_data_run num_shops n days_back shop_id w :
  credentials (environ w) = true → 5 ≤ n →
  ∃ shop_ids phones days w',
    generate_test_data num_shops n days_back shop_id w = (Ok tt, w') ∧
    shop_ids_for num_shops shop_id shop_ids ∧
    length phones = 50%nat ∧ Forall sg_phone phones ∧
    all_blocks n (hd_oracle (clock w)) phones shop_ids
      (range (days_back + 1)) days ∧
    all_data w' = concat (concat days) ∧
    environ w' = environ w ∧
    inserts w' = inserts w ++ batches 100 (all_data w') ∧
    total_inserted w' = reported (insert_outcomes w) (batches 100 (all_data w')).
Proof.
  intros Hcred Hn.
  destruct (generate_test_data_eq num_shops n days_back shop_id w Hcred)
    as (ids & phones & w3 & -> & Hids & L & P & (Qenv & Qout & Qins & _) & Hall3).
  assert (Hnonempty : phones ≠ []) by (intros ->; done).
  destruct (fill_all_data_run n days_back (hd_oracle (clock w)) ids phones w3
              Hnonempty Hn) as (days & w4 & E4 & F4 & B4).
  destruct F4 as (Fenv & _ & _ & Fout & Fins & _ & _ & Fall).
  rewrite Hall3 in Fall. simpl in Fall.
  destruct (closing_run num_shops days_back ids w4)
    as (w' & E & Hall' & Henv' & Hins' & Htot' & _).
  exists ids, phones, days, w'.
  split; [by rewrite bind_eq, E4|].
  rewrite Hall', Fall. rewrite Fall in Hins', Htot'.
  repeat split; try done; congruence.
Qed.

Lemma generate_test_data_small num_shops n days_back shop_id w :
  credentials (environ w) = true → n < 5 →
  truthy shop_id = true ∨ 1 ≤ num_shops → 0 ≤ days_back →
  ∃ w', generate_test_data num_shops n days_back shop_id w =
          (Raise ValueError, w') ∧
        quiet w w' ∧ all_data w' = [].
Proof.
  intros Hcred Hn Hshops Hdays.
  destruct (generate_test_data_eq num_shops n days_back shop_id w Hcred)
    as (ids & phones & w3 & -> & Hids & L & P & Q & Hall3).
  exists w3. split; [|done].
  rewrite bind_eq, fill_all_data_raises; [done|done| |done].
  unfold shop_ids_for in Hids. intros ->.
  destruct shop_id as [s|]; simpl in *.
  - destruct (negb (String.eqb s "")); [done|]. simpl in Hids. lia.
  - lia.
Qed.

Lemma generate_test_data_nothing num_shops n days_back shop_id w :
  credentials (environ w) = true →
  (truthy shop_id = false ∧ num_shops ≤ 0) ∨ days_back < 0 →
  ∃ w', generate_test_data num_shops n days_back shop_id w = (Ok tt, w') ∧
        all_data w' = [] ∧ inserts w' = inserts w ∧
        stdout w' = stdout w ++ [Generating 0 num_shops days_back;
                                 NoDataGenerated].
Proof.
  intros Hcred Hnone.
  destruct (generate_test_data_eq num_shops n days_back shop_id w Hcred)
    as (ids & phones & w3 & -> & Hids & L & P & (Qenv & Qout & Qins & Qstd) & Hall3).
  destruct (closing_run num_shops days_back ids w3)
    as (w' & E & Hall' & Henv' & Hins' & Htot' & Hstd').
  exists w'. rewrite bind_eq, fill_all_data_nothing.
  - split; [exact E|]. rewrite Hall', Hall3. split; [done|].
    rewrite Hins', Hall3, (Hstd' Hall3), Qins, Qstd. unfold batches. simpl.
    by rewrite app_nil_r.
  - destruct Hnone as [[Hfalsy Hnum]|Hdays]; [left|by right].
    unfold shop_ids_for in Hids. rewrite Hfalsy in Hids.
    apply length_zero_iff_nil. lia.
Qed.

(** *** Counting the rows *)

Lemma day_blocks_length n date phones shops blocks :
  day_blocks n date phones shops blocks →
  (5 * length shops ≤ length (concat blocks) ≤ Z.to_nat n * length shops)%nat.
Proof.
  unfold day_blocks. induction 1 as [|shop rows shops blocks [Hlen _] _ IH].
  - simpl. lia.
  - simpl. rewrite length_app. lia.
Qed.

Lemma all_blocks_length n now phones shops offsets days :
  all_blocks n now phones shops offsets days →
  (5 * length shops * length offsets ≤ length (concat (concat days))
   ≤ Z.to_nat n * length shops * length offsets)%nat.
Proof.
  unfold all_blocks. induction 1 as [|k blocks offsets days Hday _ IH].
  - simpl. lia.
  - apply day_blocks_length in Hday. simpl.
    rewrite concat_app, length_app. lia.
Qed.

Lemma shop_ids_for_length num_shops shop_id ids :
  shop_ids_for num_shops shop_id ids →
  length ids = if truthy shop_id then 1%nat else Z.to_nat num_shops.
Proof.
  unfold shop_ids_for. destruct shop_id as [s|]; simpl; [|done].
  destruct (negb (String.eqb s "")); [by intros ->|done].
Qed.

Lemma all_blocks_rows n now phones shops offsets days r :
  all_blocks n now phones shops offsets days →
  r ∈ concat (concat days) →
  ∃ k shop, k ∈ offsets ∧ shop ∈ shops ∧
    synthetic (dt_date (datetime_sub now (timedelta_days k))) shop phones r.
Proof.
  unfold all_blocks. induction 1 as [|k blocks offsets days Hday _ IH].
  - simpl. by intros ?%elem_of_nil.
  - simpl. rewrite concat_app, elem_of_app. intros [Hr|Hr].
    + clear IH. unfold day_blocks in Hday.
      induction Hday as [|shop rows shops blocks [_ Hrows] _ IHd].
      * by apply elem_of_nil in Hr.
      * simpl in Hr. apply elem_of_app in Hr as [Hr|Hr].
        -- exists k, shop. split; [left|]. split; [left|].
           rewrite Forall_forall in Hrows. by apply Hrows.
        -- destruct (IHd Hr) as (k' & shop' & Hk & Hs & Hsyn).
           exists k', shop'. split; [done|]. split; [by right|done].
    + destruct (IH Hr) as (k' & shop' & Hk & Hs & Hsyn).
      exists k', shop'. split; [by right|done].
Qed.

Lemma elem_of_range k n : k ∈ range n ↔ 0 ≤ k < n.
Proof.
  unfold range. rewrite list_elem_of_fmap. split.
  - intros (i & -> & Hi). apply elem_of_seq in Hi. lia.
  - intros Hk. exists (Z.to_nat k). split; [lia|]. apply elem_of_seq. lia.
Qed.

(** *** Properties of generate_test_data *)

(** X11. Without a URL or without any key the client cannot be made: the
    function raises [RuntimeError] at once, and nothing was drawn, sent or
    printed. *)
Theorem generator_needs_credentials (num_shops n days_back : Z)
    (shop_id : option string) (w : world) :
  credentials (environ w) = false →
  get_supabase_client w = (Raise RuntimeError, w) ∧
  generate_test_data num_shops n days_back shop_id w = (Raise RuntimeError, w).
Proof.
  intros Hcred. split.
  - by rewrite get_supabase_client_eq, Hcred.
  - unfold generate_test_data. by rewrite bind_eq, get_supabase_client_eq, Hcred.
Qed.

Lemma generator_needs_credentials_witness :
  generate_test_data 3 10 1 None bare = (Raise RuntimeError, bare).
Proof.
  apply (generator_needs_credentials 3 10 1 None bare). reflexivity.
Defined.

(** X12. With credentials and at least 5 rows allowed per shop and day, the
    function ends normally and the number of generated rows lies between
    5 and [num_logs_per_shop] times the number of shops times the number
    of days ([days_back + 1], none if that is negative); the shops are the
    one given, or [num_shops] fresh ones. *)
Theorem generated_rows_count (num_shops n days_back : Z)
    (shop_id : option string) (w : world) :
  let run := generate_test_data num_shops n days_back shop_id w in
  let shops := if truthy shop_id then 1%nat else Z.to_nat num_shops in
  let days := Z.to_nat (days_back + 1) in
  credentials (environ w) = true → 5 ≤ n →
  run.1 = Ok tt ∧
  (5 * shops * days ≤ length (all_data run.2) ≤ Z.to_nat n * shops * days)%nat.
Proof.
  cbv zeta. intros Hcred Hn.
  destruct (generate_test_data_run num_shops n days_back shop_id w Hcred Hn)
    as (ids & phones & days & w' & -> & Hids & _ & _ & Hblocks & Hall & _).
  split; [done|]. simpl. rewrite Hall.
  apply all_blocks_length in Hblocks.
  rewrite range_length, (shop_ids_for_length _ _ _ Hids) in Hblocks. done.
Qed.

Lemma generated_rows_count_witness :
  (generate_test_data 3 10 1 None demo).1 = Ok tt ∧
  (30 ≤ length (all_data (generate_test_data 3 10 1 None demo).2) ≤ 60)%nat.
Proof.
  apply (generated_rows_count 3 10 1 None demo); [reflexivity|lia].
Defined.

(** X13. With fewer than 5 rows allowed, as soon as there is a shop and a day
    to generate for, the first draw of a number of rows raises
    [ValueError]: no row was generated, no batch sent and nothing
    printed. *)
Theorem small_num_logs_raises (num_shops n days_back : Z)
    (shop_id : option string) (w : world) :
  let run := generate_test_data num_shops n days_back shop_id w in
  credentials (environ w) = true → n < 5 →
  truthy shop_id = true ∨ 1 ≤ num_shops → 0 ≤ days_back →
  run.1 = Raise ValueError ∧ all_data run.2 = [] ∧
  inserts run.2 = inserts w ∧ stdout run.2 = stdout w.
Proof.
  cbv zeta. intros Hcred Hn Hshops Hdays.
  destruct (generate_test_data_small num_shops n days_back shop_id w
              Hcred Hn Hshops Hdays) as (w' & -> & (_ & _ & Hins & Hstd) & Hall).
  done.
Qed.

Lemma small_num_logs_raises_witness :
  (generate_test_data 3 4 1 None demo).1 = Raise ValueError ∧
  all_data (generate_test_data 3 4 1 None demo).2 = [] ∧
  inserts (generate_test_data 3 4 1 None demo).2 = [] ∧
  stdout (generate_test_data 3 4 1 None demo).2 = [].
Proof.
  apply (small_num_logs_raises 3 4 1 None demo);
    [reflexivity|lia|right; lia|lia].
Defined.

(** X14. With no shop to generate for (no shop given and [num_shops] not
    positive) or no day ([days_back] negative), whatever
    [num_logs_per_shop] is, the function ends normally after the warning:
    no row, no batch. *)
Theorem nothing_to_generate (num_shops n days_back : Z)
    (shop_id : option string) (w : world) :
  let run := generate_test_data num_shops n days_back shop_id w in
  credentials (environ w) = true →
  (truthy shop_id = false ∧ num_shops ≤ 0) ∨ days_back < 0 →
  run.1 = Ok tt ∧ all_data run.2 = [] ∧ inserts run.2 = inserts w ∧
  stdout run.2 = stdout w ++ [Generating 0 num_shops days_back; NoDataGenerated].
Proof.
  cbv zeta. intros Hcred Hnone.
  destruct (generate_test_data_nothing num_shops n days_back shop_id w
              Hcred Hnone) as (w' & -> & Hall & Hins & Hstd).
  done.
Qed.

Lemma nothing_to_generate_witness :
  (generate_test_data 0 2 1 (Some "") demo).1 = Ok tt ∧
  all_data (generate_test_data 0 2 1 (Some "") demo).2 = [] ∧
  inserts (generate_test_data 0 2 1 (Some "") demo).2 = [] ∧
  stdout (generate_test_data 0 2 1 (Some "") demo).2 =
    [Generating 0 0 1; NoDataGenerated].
Proof.
  apply (nothing_to_generate 0 2 1 (Some "") demo); [reflexivity|].
  left. split; [reflexivity|lia].
Defined.

(** X15. Every generated row is well formed: its shop is one of the run's
    shops, its phone number is +65 followed by a number between 80000000
    and 99999999, its transaction type is the constant one, and its
    timestamp is a whole second of one of the [days_back + 1] days that end
    on the day the function was called. *)
Theorem generated_rows_well_formed (num_shops n days_back : Z)
    (given : option string) (w : world) :
  let run := generate_test_data num_shops n days_back given w in
  let today := dt_date (hd_oracle (clock w)) in
  credentials (environ w) = true → 5 ≤ n →
  wf_datetime (hd_oracle (clock w)) →
  ∀ r, r ∈ all_data run.2 →
    (∃ shop, shop_id r = Some shop ∧
             (truthy given = true → Some shop = given)) ∧
    (∃ p, phone_number r = Some p ∧ sg_phone p) ∧
    transaction_type r = "stamp_collection" ∧
    (∃ t, created_at r = Some t ∧ wf_datetime t ∧ dt_microsecond t = 0 ∧
          today - days_back ≤ dt_date t ≤ today).
Proof.
  cbv zeta. intros Hcred Hn Hwf r Hr.
  destruct (generate_test_data_run num_shops n days_back given w Hcred Hn)
    as (ids & phones & days & w' & E & Hids & _ & Hpool & Hblocks & Hall & _).
  rewrite E in Hr. simpl in Hr. rewrite Hall in Hr.
  destruct (all_blocks_rows _ _ _ _ _ _ _ Hblocks Hr)
    as (k & shop & Hk & Hshop & Hs & (p & Hp & Hin) & Htype & h & m & s & Ht & Hh & Hm & Hsec).
  apply elem_of_range in Hk.
  rewrite datetime_sub_days in Ht by done. simpl in Ht.
  split; [|split; [|split]].
  - exists shop. split; [done|]. intros Htruthy.
    unfold shop_ids_for in Hids. rewrite Htruthy in Hids. subst ids.
    destruct given as [s0|]; [|done]. simpl in Hshop.
    apply list_elem_of_singleton in Hshop. by subst.
  - exists p. split; [done|]. rewrite Forall_forall in Hpool. by apply Hpool.
  - done.
  - eexists. split; [exact Ht|]. unfold wf_datetime. simpl. lia.
Qed.

Lemma generated_rows_well_formed_witness :
  Forall (λ r, transaction_type r = "stamp_collection" ∧
               ∃ t, created_at r = Some t ∧
                    Sample.jan20 ≤ dt_date t ≤ Sample.jan21)
    (all_data (generate_test_data 3 10 1 None demo).2).
Proof.
  apply Forall_forall. intros r Hr.
  destruct (generated_rows_well_formed 3 10 1 None demo) with (r := r)
    as (_ & _ & Htype & t & Ht & _ & _ & Hdate).
  - reflexivity.
  - lia.
  - unfold wf_datetime. simpl. lia.
  - exact Hr.
  - split; [exact Htype|]. exists t. split; [exact Ht|]. exact Hdate.
Defined.

(** X16. The rows come shop by shop within a day, and day by day from today
    backwards: the block of each shop on each day holds between 5 and
    [num_logs_per_shop] rows, all of that shop and that day. *)
Theorem generated_rows_by_day_and_shop (num_shops n days_back : Z)
    (given : option string) (w : world) :
  let run := generate_test_data num_shops n days_back given w in
  let today := dt_date (hd_oracle (clock w)) in
  credentials (environ w) = true → 5 ≤ n →
  wf_datetime (hd_oracle (clock w)) →
  ∃ (shop_ids : list string) (days : list (list (list LogRecord))),
    shop_ids_for num_shops given shop_ids ∧
    all_data run.2 = concat (concat days) ∧
    Forall2 (λ k blocks,
      Forall2 (λ shop rows,
        5 ≤ Z.of_nat (length rows) ≤ n ∧
        Forall (λ r, shop_id r = Some shop ∧
                     dt_date <$> created_at r = Some (today - k)) rows)
        shop_ids blocks)
      (range (days_back + 1)) days.
Proof.
  cbv zeta. intros Hcred Hn Hwf.
  destruct (generate_test_data_run num_shops n days_back given w Hcred Hn)
    as (ids & phones & days & w' & E & Hids & _ & _ & Hblocks & Hall & _).
  exists ids, days. rewrite E. split; [done|]. split; [done|].
  unfold all_blocks in Hblocks.
  eapply Forall2_impl; [exact Hblocks|]. intros k blocks Hday. cbv beta in Hday.
  unfold day_blocks in Hday.
  eapply Forall2_impl; [exact Hday|]. intros shop rows [Hlen Hrows].
  split; [lia|].
  eapply Forall_impl; [exact Hrows|].
  intros r (Hs & _ & _ & h & m & s & Ht & _). split; [done|].
  rewrite Ht, datetime_sub_days by done. done.
Qed.

Lemma generated_rows_by_day_and_shop_witness :
  ∃ (shop_ids : list string) (days : list (list (list LogRecord))),
    shop_ids = ["only"] ∧
    all_data (generate_test_data 7 6 0 (Some "only") demo).2 =
      concat (concat days) ∧
    Forall2 (λ k blocks,
      Forall2 (λ shop rows,
        5 ≤ Z.of_nat (length rows) ≤ 6 ∧
        Forall (λ r, shop_id r = Some shop ∧
                     dt_date <$> created_at r = Some (Sample.jan21 - k)) rows)
        shop_ids blocks)
      [0] days.
Proof.
  destruct (generated_rows_by_day_and_shop 7 6 0 (Some "only") demo)
    as (ids & days & Hids & Hall & Hblocks).
  - reflexivity.
  - lia.
  - unfold wf_datetime. simpl. lia.
  - exists ids, days. split; [exact Hids|]. split; [exact Hall|exact Hblocks].
Defined.

(** *** Sending the rows *)

Lemma reported_all_none o bs :
  (∀ k, o k = InsertData None) → reported o bs = length (concat bs).
Proof.
  revert o. induction bs as [|b bs IH]; intros o Ho; [done|].
  simpl. unfold hd_oracle. rewrite Ho, length_app. simpl. f_equal.
  apply IH. intros k. apply Ho.
Qed.

Lemma reported_all_raise o bs :
  (∀ k, ∃ e, o k = InsertRaises e) → reported o bs = 0%nat.
Proof.
  revert o. induction bs as [|b bs IH]; intros o Ho; [done|].
  simpl. unfold hd_oracle. destruct (Ho 0%nat) as [e ->]. simpl.
  apply IH. intros k. apply Ho.
Qed.

(** X17. Whatever the inserts do (raise, answer with rows, answer without),
    the function ends normally and has sent all the generated rows, once
    each and in their order, in batches of 100 rows, the last one possibly
    shorter. *)
Theorem all_batches_are_sent (num_shops n days_back : Z)
    (given : option string) (w : world) :
  let run := generate_test_data num_shops n days_back given w in
  let sent := drop (length (inserts w)) (inserts run.2) in
  credentials (environ w) = true → 5 ≤ n →
  run.1 = Ok tt ∧
  concat sent = all_data run.2 ∧
  Forall (λ b, (1 ≤ length b ≤ 100)%nat) sent ∧
  length sent = ((length (all_data run.2) + 99) / 100)%nat ∧
  (∀ i b, sent !! i = Some b → b = take 100 (drop (i * 100) (all_data run.2))).
Proof.
  cbv zeta. intros Hcred Hn.
  destruct (generate_test_data_run num_shops n days_back given w Hcred Hn)
    as (ids & phones & days & w' & -> & _ & _ & _ & _ & _ & _ & Hins & _).
  cbn [fst snd]. rewrite Hins, drop_app_length.
  split; [done|]. split; [apply concat_batches; lia|].
  split; [apply batches_sizes; lia|].
  split; [rewrite length_batches; f_equal; lia|].
  intros i b Hb. unfold batches, range_step in Hb.
  rewrite !list_lookup_fmap in Hb.
  destruct (seq 0 _ !! i) as [k|] eqn:Hk; [|done].
  apply lookup_seq in Hk as [-> _]. simpl in Hb. by injection Hb as <-.
Qed.

Lemma all_batches_are_sent_witness :
  (generate_test_data 3 60 1 None demo).1 = Ok tt ∧
  concat (inserts (generate_test_data 3 60 1 None demo).2) =
    all_data (generate_test_data 3 60 1 None demo).2.
Proof.
  destruct (all_batches_are_sent 3 60 1 None demo)
    as (Hok & Hsent & _); [reflexivity|lia|].
  split; [exact Hok|exact Hsent].
Defined.

(** X18. The total the function reports adds, batch by batch, the number of
    rows of the answer when the insert answers with rows, the size of the
    batch when it answers without data, and nothing when it raises or
    answers with no row.  So it is the number of generated rows when every
    insert answers without data, and 0 when every insert raises. *)
Theorem reported_total (num_shops n days_back : Z)
    (given : option string) (w : world) :
  let run := generate_test_data num_shops n days_back given w in
  credentials (environ w) = true → 5 ≤ n →
  total_inserted run.2 =
    reported (insert_outcomes w) (batches 100 (all_data run.2)) ∧
  ((∀ k, insert_outcomes w k = InsertData None) →
   total_inserted run.2 = length (all_data run.2)) ∧
  ((∀ k, ∃ e, insert_outcomes w k = InsertRaises e) →
   run.1 = Ok tt ∧ total_inserted run.2 = 0%nat).
Proof.
  cbv zeta. intros Hcred Hn.
  destruct (generate_test_data_run num_shops n days_back given w Hcred Hn)
    as (ids & phones & days & w' & -> & _ & _ & _ & _ & _ & _ & _ & Htot).
  simpl. split; [done|]. split.
  - intros Hnone. rewrite Htot, reported_all_none by done.
    by rewrite concat_batches by lia.
  - intros Hraise. by rewrite Htot, reported_all_raise.
Qed.

Lemma reported_total_witness :
  total_inserted (generate_test_data 3 60 1 None demo).2 =
  reported (insert_outcomes demo)
    (batches 100 (all_data (generate_test_data 3 60 1 None demo).2)).
Proof.
  apply (reported_total 3 60 1 None demo); [reflexivity|lia].
Defined.

(** *** The claims on the generator *)

(** The rows of a run that has its credentials and may draw: day by day
    from today backwards and, within a day, shop by shop, in blocks of 5
    to [n] rows of that shop and day. *)
Lemma generated_blocks num_shops n days_back given w :
  let run := generate_test_data num_shops n days_back given w in
  let today := dt_date (hd_oracle (clock w)) in
  credentials (environ w) = true → 5 ≤ n →
  wf_datetime (hd_oracle (clock w)) →
  run.1 = Ok tt ∧
  ∃ (shop_ids : list string) (days : list (list (list LogRecord))),
    shop_ids_for num_shops given shop_ids ∧
    all_data run.2 = concat (concat days) ∧
    length days = Z.to_nat (days_back + 1) ∧
    Forall2 (λ k blocks,
      Forall2 (λ shop rows,
        5 ≤ Z.of_nat (length rows) ≤ n ∧
        Forall (λ r, shop_id r = Some shop ∧
                     dt_date <$> created_at r = Some (today - k)) rows)
        shop_ids blocks)
      (range (days_back + 1)) days.
Proof.
  cbv zeta. intros Hcred Hn Hwf.
  destruct (generate_test_data_run num_shops n days_back given w Hcred Hn)
    as (ids & phones & days & w' & E & Hids & _ & _ & Hblocks & Hall & _).
  rewrite E. split; [done|]. exists ids, days.
  split; [done|]. split; [done|]. split.
  { apply Forall2_length in Hblocks. by rewrite <- Hblocks, range_length. }
  unfold all_blocks in Hblocks.
  eapply Forall2_impl; [exact Hblocks|]. intros k blocks Hday. cbv beta in Hday.
  unfold day_blocks in Hday.
  eapply Forall2_impl; [exact Hday|]. intros shop rows [Hlen Hrows].
  split; [lia|].
  eapply Forall_impl; [exact Hrows|].
  intros r (Hs & _ & _ & h & m & s & Ht & _). split; [done|].
  rewrite Ht, datetime_sub_days by done. done.
Qed.

(** C8. For every outcome of the random draws, with 3 shops, at most 10
    rows per shop and day, one day back and no shop given, between 30 and
    60 rows are generated.  In general the rows are those of
    [days_back + 1] consecutive days ending today, and each day holds, for
    each shop, between 5 and [num_logs_per_shop] rows of that shop and
    day. *)
Theorem rows_per_shop_and_day (w : world) :
  let today := dt_date (hd_oracle (clock w)) in
  credentials (environ w) = true →
  wf_datetime (hd_oracle (clock w)) →
  (30 ≤ length (all_data (generate_test_data 3 10 1 None w).2) ≤ 60)%nat ∧
  ∀ (num_shops n days_back : Z) (given : option string),
    5 ≤ n →
    ∃ (shop_ids : list string) (days : list (list (list LogRecord))),
      shop_ids_for num_shops given shop_ids ∧
      all_data (generate_test_data num_shops n days_back given w).2 =
        concat (concat days) ∧
      length days = Z.to_nat (days_back + 1) ∧
      Forall2 (λ k blocks,
        Forall2 (λ shop rows,
          5 ≤ Z.of_nat (length rows) ≤ n ∧
          Forall (λ r, shop_id r = Some shop ∧
                       dt_date <$> created_at r = Some (today - k)) rows)
          shop_ids blocks)
        (range (days_back + 1)) days.
Proof.
  cbv zeta. intros Hcred Hwf. split.
  - destruct (generate_test_data_run 3 10 1 None w Hcred)
      as (ids & phones & days & w' & -> & Hids & _ & _ & Hblocks & Hall & _);
      [lia|].
    simpl. rewrite Hall. apply all_blocks_length in Hblocks.
    rewrite range_length, (shop_ids_for_length _ _ _ Hids) in Hblocks.
    simpl in Hblocks. lia.
  - intros num_shops n days_back given Hn.
    by destruct (generated_blocks num_shops n days_back given w Hcred Hn Hwf)
      as [_ Hrows].
Qed.

Lemma rows_per_shop_and_day_witness :
  (30 ≤ length (all_data (generate_test_data 3 10 1 None demo).2) ≤ 60)%nat.
Proof.
  apply (rows_per_shop_and_day demo).
  - reflexivity.
  - unfold wf_datetime. simpl. lia.
Defined.

(** C10. The number of rows of a shop on a day is drawn between 5 and
    [num_logs_per_shop].  With fewer than 5 allowed and a shop and a day to
    generate for, the first draw raises [ValueError]: no row was generated
    and no batch sent.  With fewer than 5 allowed and no shop or no day,
    nothing is drawn and no row is generated.  With 5 or more allowed,
    every shop has at least 5 rows on every day. *)
Theorem never_fewer_than_five_rows (num_shops n days_back : Z)
    (given : option string) (w : world) :
  let run := generate_test_data num_shops n days_back given w in
  credentials (environ w) = true →
  (n < 5 → truthy given = true ∨ 1 ≤ num_shops → 0 ≤ days_back →
   run.1 = Raise ValueError ∧ all_data run.2 = [] ∧
   inserts run.2 = inserts w) ∧
  (n < 5 → (truthy given = false ∧ num_shops ≤ 0) ∨ days_back < 0 →
   run.1 = Ok tt ∧ all_data run.2 = [] ∧ inserts run.2 = inserts w) ∧
  (5 ≤ n →
   run.1 = Ok tt ∧
   ∃ (shop_ids : list string) (days : list (list (list LogRecord))),
     shop_ids_for num_shops given shop_ids ∧
     all_data run.2 = concat (concat days) ∧
     length days = Z.to_nat (days_back + 1) ∧
     Forall (λ blocks,
       Forall2 (λ shop rows,
         5 ≤ Z.of_nat (length rows) ≤ n ∧
         Forall (λ r, shop_id r = Some shop) rows) shop_ids blocks) days).
Proof.
  cbv zeta. intros Hcred. split; [|split].
  - intros Hn Hshops Hdays.
    destruct (generate_test_data_small num_shops n days_back given w
                Hcred Hn Hshops Hdays) as (w' & -> & (_ & _ & Hins & _) & Hall).
    done.
  - intros _ Hnone.
    destruct (generate_test_data_nothing num_shops n days_back given w
                Hcred Hnone) as (w' & -> & Hall & Hins & _).
    done.
  - intros Hn.
    destruct (generate_test_data_run num_shops n days_back given w Hcred Hn)
      as (ids & phones & days & w' & -> & Hids & _ & _ & Hblocks & Hall & _).
    split; [done|]. exists ids, days.
    split; [done|]. split; [done|]. split.
    { apply Forall2_length in Hblocks. by rewrite <- Hblocks, range_length. }
    unfold all_blocks in Hblocks.
    clear Hall.
    induction Hblocks as [|k blocks offsets days' Hday _ IH]; [constructor|].
    constructor; [|exact IH].
    unfold day_blocks in Hday.
    eapply Forall2_impl; [exact Hday|]. intros shop rows [Hlen Hrows].
    split; [lia|].
    eapply Forall_impl; [exact Hrows|]. by intros r (Hs & _).
Qed.

Lemma never_fewer_than_five_rows_witness :
  (generate_test_data 3 4 1 None demo).1 = Raise ValueError ∧
  all_data (generate_test_data 3 4 1 None demo).2 = [] ∧
  inserts (generate_test_data 3 4 1 None demo).2 = [].
Proof.
  apply (never_fewer_than_five_rows 3 4 1 None demo);
    [reflexivity|lia|right; lia|lia].
Defined.

End GenerateFacts.

(** ** More facts about analytics.py *)

Module AnalyticsMore.
Import Analytics Run PyFacts AnalyticsFacts.

Lemma aggregator_client_eq w :
  get_supabase_client w =
  if Gen.credentials (environ w) then (Ok tt, w) else (Raise RuntimeError, w).
Proof.
  unfold get_supabase_client, getenv, mbind, M_bind, Gen.credentials.
  cbv beta iota. rewrite GenerateFacts.truthy_or_else.
  destruct (truthy (environ w !! "SUPABASE_URL"));
    destruct (truthy (environ w !! "SUPABASE_SERVICE_ROLE_KEY"));
    destruct (truthy (environ w !! "SUPABASE_ANON_KEY")); reflexivity.
Qed.

Lemma main_eq w :
  main w =
  if Gen.credentials (environ w)
  then main_df (default [] (response_data w)) w
  else (Raise RuntimeError, w).
Proof.
  unfold main, fetch_table_df, fetch_table_rows.
  rewrite !GenerateFacts.bind_eq, aggregator_client_eq.
  destruct (Gen.credentials (environ w)); reflexivity.
Qed.

(** X1. Without a URL, or with neither a service-role key nor an anonymous
    key (an empty value counts as missing), the script raises
    [RuntimeError] before anything is fetched: the clock is not read, no
    request is sent, nothing is printed. *)
Theorem aggregator_needs_credentials (w : world) :
  Gen.credentials (environ w) = false →
  get_supabase_client w = (Raise RuntimeError, w) ∧
  main w = (Raise RuntimeError, w).
Proof.
  intros Hcred. split.
  - by rewrite aggregator_client_eq, Hcred.
  - by rewrite main_eq, Hcred.
Qed.

Lemma aggregator_needs_credentials_witness :
  main (mk_world {["SUPABASE_URL" := "https://example.supabase.co";
                   "SUPABASE_ANON_KEY" := ""]}
          (Some Sample.rows) Sample.clock_0015 (λ _, false) [] ∅ []) =
  (Raise RuntimeError,
   mk_world {["SUPABASE_URL" := "https://example.supabase.co";
              "SUPABASE_ANON_KEY" := ""]}
     (Some Sample.rows) Sample.clock_0015 (λ _, false) [] ∅ []).
Proof.
  exact (proj2 (aggregator_needs_credentials
    (mk_world {["SUPABASE_URL" := "https://example.supabase.co";
                "SUPABASE_ANON_KEY" := ""]}
       (Some Sample.rows) Sample.clock_0015 (λ _, false) [] ∅ []) eq_refl)).
Defined.

(** X2. With credentials, the script does on the fetched rows what lines
    128-175 do; a response without data is the same as a response with no
    row: one line is printed, the clock is not read and no request is
    sent. *)
Theorem null_response_is_no_data (w : world) :
  Gen.credentials (environ w) = true →
  main w = main_df (default [] (response_data w)) w ∧
  (response_data w = None ∨ response_data w = Some [] →
   main w =
   (Ok tt, mk_world (environ w) (response_data w) (clock w)
             (put_item_raises w) (calls w) (table w)
             (stdout w ++ [NoDataReturned]))).
Proof.
  intros Hcred. rewrite main_eq, Hcred. split; [done|].
  intros [Hr|Hr];
    replace (default [] (response_data w)) with (@nil FetchedRow)
      by (by rewrite Hr);
    reflexivity.
Qed.

Lemma null_response_is_no_data_witness :
  (main (mk_world (environ (Sample.calm [])) None Sample.clock_0015
           (λ _, false) [] ∅ [])).1 = Ok tt ∧
  stdout (main (mk_world (environ (Sample.calm [])) None Sample.clock_0015
                  (λ _, false) [] ∅ [])).2 = [NoDataReturned].
Proof.
  destruct (null_response_is_no_data
    (mk_world (environ (Sample.calm [])) None Sample.clock_0015
       (λ _, false) [] ∅ [])) as [_ Hnull]; [reflexivity|].
  rewrite Hnull by (left; reflexivity). split; reflexivity.
Defined.

(** *** Saving one count *)

Lemma save_then_table shop date n w :
  (hd_oracle (put_item_raises w) = true →
   table (save_unique_customer_count_ddb shop date n w).2 = table w) ∧
  (hd_oracle (put_item_raises w) = false →
   table (save_unique_customer_count_ddb shop date n w).2 =
   upsert (table w) {| item_shop_id := shop; item_date := date;
                       unique_customers := n;
                       updated_at := hd_oracle (clock w) |}).
Proof.
  unfold save_unique_customer_count_ddb, datetime_now, put_item.
  rewrite GenerateFacts.bind_eq. cbv beta iota. simpl.
  destruct (hd_oracle (put_item_raises w)); simpl; split; done.
Qed.

Lemma save_then_oracles shop date n w :
  hd_oracle (put_item_raises (save_unique_customer_count_ddb shop date n w).2)
    = put_item_raises w 1%nat ∧
  hd_oracle (clock (save_unique_customer_count_ddb shop date n w).2)
    = clock w 1%nat.
Proof.
  unfold save_unique_customer_count_ddb, datetime_now, put_item.
  rewrite GenerateFacts.bind_eq. cbv beta iota. simpl.
  destruct (hd_oracle (put_item_raises w)); simpl; split; done.
Qed.

(** X3. [save_unique_customer_count_ddb] reads the clock once and sends one
    request.  If the request does not raise, the table then holds, under
    (shop, date), exactly the item built from the arguments and that clock
    reading, and every other key is as before; if it raises, the exception
    goes up and the table is as before. *)
Theorem save_is_an_upsert (shop : string) (date n : Z) (w : world) :
  let it := {| item_shop_id := shop; item_date := date;
               unique_customers := n;
               updated_at := hd_oracle (clock w) |} in
  let run := save_unique_customer_count_ddb shop date n w in
  calls run.2 = calls w ++ [it] ∧
  clock run.2 = tl_oracle (clock w) ∧
  (hd_oracle (put_item_raises w) = false →
     run.1 = Ok tt ∧ table run.2 !! (shop, date) = Some it ∧
     ∀ k, k ≠ (shop, date) → table run.2 !! k = table w !! k) ∧
  (hd_oracle (put_item_raises w) = true →
     run.1 = Raise ClientError ∧ table run.2 = table w).
Proof.
  cbv zeta. unfold save_unique_customer_count_ddb, datetime_now, put_item.
  rewrite GenerateFacts.bind_eq. cbv beta iota. simpl.
  destruct (hd_oracle (put_item_raises w)); simpl.
  - split; [done|]. split; [done|]. split; [done|]. done.
  - split; [done|]. split; [done|]. split; [|done]. intros _.
    split; [done|]. split; [apply lookup_insert_eq|].
    intros k Hk. by apply lookup_insert_ne.
Qed.

Lemma save_is_an_upsert_witness :
  table (save_unique_customer_count_ddb "A" Sample.jan20 2
           (Sample.calm Sample.rows)).2 !! ("A", Sample.jan20) =
  Some {| item_shop_id := "A"; item_date := Sample.jan20;
          unique_customers := 2; updated_at := Sample.clock_0015 0 |}.
Proof.
  destruct (save_is_an_upsert "A" Sample.jan20 2 (Sample.calm Sample.rows))
    as (_ & _ & Hok & _).
  destruct (Hok eq_refl) as (_ & Hlookup & _). exact Hlookup.
Defined.

(** X4. Saving twice under the same shop and date keeps one item, the second
    one: the count is replaced, not added, and the table has no more keys
    than after the first save. *)
Theorem second_save_replaces_first (shop : string) (date n1 n2 : Z) (w : world) :
  let w1 := (save_unique_customer_count_ddb shop date n1 w).2 in
  let w2 := (save_unique_customer_count_ddb shop date n2 w1).2 in
  put_item_raises w 0%nat = false → put_item_raises w 1%nat = false →
  (unique_customers <$> table w2 !! (shop, date)) = Some n2 ∧
  dom (table w2) = dom (table w1) ∧
  table w2 =
    <[(shop, date) := {| item_shop_id := shop; item_date := date;
                         unique_customers := n2;
                         updated_at := clock w 1%nat |}]> (table w).
Proof.
  cbv zeta. intros H0 H1.
  destruct (save_then_table shop date n1 w) as [_ Hfirst].
  specialize (Hfirst H0).
  destruct (save_then_table shop date n2
              (save_unique_customer_count_ddb shop date n1 w).2)
    as [_ Hsecond].
  destruct (save_then_oracles shop date n1 w) as [Hput Hclock].
  rewrite Hput, Hclock in Hsecond. specialize (Hsecond H1).
  rewrite Hsecond, Hfirst. unfold upsert. simpl.
  rewrite insert_insert_eq. split; [by rewrite lookup_insert_eq|].
  split; [|done]. rewrite !dom_insert_L. set_solver.
Qed.

Lemma second_save_replaces_first_witness :
  (unique_customers <$>
     table (save_unique_customer_count_ddb "A" Sample.jan20 5
              (save_unique_customer_count_ddb "A" Sample.jan20 2
                 (Sample.calm Sample.rows)).2).2 !! ("A", Sample.jan20)) =
  Some 5.
Proof.
  apply (second_save_replaces_first "A" Sample.jan20 2 5
           (Sample.calm Sample.rows)); reflexivity.
Defined.

(** *** What a run writes and what it leaves alone *)

Lemma foldl_upsert_keeps items t k0 :
  is_Some (t !! k0) → is_Some (foldl upsert t items !! k0).
Proof.
  revert t. induction items as [|x items IH]; intros t Hsome; [done|].
  simpl. apply IH. unfold upsert.
  destruct (decide ((item_shop_id x, item_date x) = k0)) as [<-|Hne].
  - rewrite lookup_insert_eq. by eexists.
  - by rewrite lookup_insert_ne.
Qed.

(** A run only writes under keys made of the target date and a shop that
    has a row on that date: every other key holds what it held before,
    and no key is ever removed. *)
Lemma parsed_run_writes_only_target_keys (df : list LogRecord) (w : world)
    (shop : string) (date : Z) :
  let target := target_date (hd_oracle (clock w)) in
  let run := main_parsed df w in
  (date ≠ target ∨ ¬ (∃ r, r ∈ df ∧ row_of shop target r) →
   table run.2 !! (shop, date) = table w !! (shop, date)) ∧
  (is_Some (table w !! (shop, date)) → is_Some (table run.2 !! (shop, date))).
Proof.
  cbv zeta. split.
  - intros Hother. apply table_main_df_other.
    destruct Hother as [?|Hnone]; [by left|right].
    by rewrite elem_of_shops_of.
  - destruct (main_parsed_run df w) as (_ & _ & ->). apply foldl_upsert_keeps.
Qed.


Lemma issued_shops df w :
  item_shop_id <$> issued w (main_parsed df w).2 =
  take (S (successes (put_item_raises w)
             (length (shops_of df (target_date (hd_oracle (clock w)))))))
    (shops_of df (target_date (hd_oracle (clock w)))).
Proof.
  rewrite issued_main_df, fmap_take. f_equal.
  apply list_eq. intros i. rewrite list_lookup_fmap, summaries_lookup.
  by destruct (_ !! i).
Qed.

(** A run sends at most one request per shop, never two for the same
    shop; when it ends normally it has sent exactly one for each shop that
    has a row on the target date, and for no other shop. *)
Lemma parsed_one_request_per_shop (df : list LogRecord) (w : world) :
  let target := target_date (hd_oracle (clock w)) in
  let run := main_parsed df w in
  let sent := item_shop_id <$> issued w run.2 in
  NoDup sent ∧
  (∀ shop, shop ∈ sent → ∃ r, r ∈ df ∧ row_of shop target r) ∧
  (run.1 = Ok tt →
   ∀ shop, (∃ r, r ∈ df ∧ row_of shop target r) → shop ∈ sent).
Proof.
  cbv zeta. rewrite issued_shops. split; [|split].
  - eapply sublist_NoDup; [apply NoDup_shops_of|apply sublist_take].
  - intros shop Hin. apply elem_of_shops_of.
    eapply elem_of_sublist; [exact Hin|apply sublist_take].
  - intros Hok shop Hrow. rewrite (main_parsed_ok_successes _ _ Hok).
    rewrite take_ge by lia. by apply elem_of_shops_of.
Qed.


(** Rows of other dates play no part: with or without such a row among
    the fetched ones, the run ends the same way, sends the same requests
    and leaves the same table. *)
Lemma parsed_other_dates_are_ignored (l1 l2 : list LogRecord) (r : LogRecord)
    (w : world) :
  let target := target_date (hd_oracle (clock w)) in
  ¬ on_date target r →
  (main_parsed (l1 ++ r :: l2) w).1 = (main_parsed (l1 ++ l2) w).1 ∧
  calls (main_parsed (l1 ++ r :: l2) w).2 = calls (main_parsed (l1 ++ l2) w).2 ∧
  table (main_parsed (l1 ++ r :: l2) w).2 = table (main_parsed (l1 ++ l2) w).2.
Proof.
  cbv zeta. intros Hdate.
  assert (Hrows :
    filter (on_date (target_date (hd_oracle (clock w)))) (l1 ++ r :: l2) =
    filter (on_date (target_date (hd_oracle (clock w)))) (l1 ++ l2)).
  { rewrite !filter_app. f_equal. by rewrite filter_cons, decide_False. }
  destruct (main_parsed_run (l1 ++ r :: l2) w) as (-> & -> & ->).
  destruct (main_parsed_run (l1 ++ l2) w) as (-> & -> & ->).
  assert (Hshops : shops_of (l1 ++ r :: l2) (target_date (hd_oracle (clock w)))
                   = shops_of (l1 ++ l2) (target_date (hd_oracle (clock w)))).
  { unfold shops_of. by rewrite Hrows. }
  rewrite Hshops.
  assert (Hitems :
    summaries (l1 ++ r :: l2) (target_date (hd_oracle (clock w)))
      (tl_oracle (clock w))
      (shops_of (l1 ++ l2) (target_date (hd_oracle (clock w)))) =
    summaries (l1 ++ l2) (target_date (hd_oracle (clock w)))
      (tl_oracle (clock w))
      (shops_of (l1 ++ l2) (target_date (hd_oracle (clock w))))).
  { apply list_eq. intros k. rewrite !summaries_lookup.
    destruct (_ !! k) as [shop|]; [|done]. simpl. f_equal.
    unfold summary. by rewrite Hrows. }
  by rewrite Hitems.
Qed.


(** *** The count *)

Lemma length_unique_from {A} `{Countable A} (seen : gset A) (col : list A) :
  (length (unique_from seen col) ≤ length col)%nat.
Proof.
  revert seen. induction col as [|x col IH]; intros seen; simpl; [lia|].
  case_decide.
  - specialize (IH seen). lia.
  - specialize (IH ({[x]} ∪ seen)). simpl. lia.
Qed.

Lemma length_omap_le {A B} (f : A → option B) (l : list A) :
  (length (omap f l) ≤ length l)%nat.
Proof.
  induction l as [|x l IH]; csimpl; [lia|]. destruct (f x); csimpl; lia.
Qed.

(** X8. The count of a shop on a date is at most the number of its rows of
    that date, and it is 0 exactly when none of them has a phone number. *)
Theorem count_bounds (df : list LogRecord) (target : Z) (shop : string) :
  let n := count_unique_customers (filter (on_date target) df) shop in
  (n ≤ length (filter (row_of shop target) df))%nat ∧
  (n = 0%nat ↔ ∀ r, r ∈ df → row_of shop target r → phone_number r = None).
Proof.
  cbv zeta. split.
  - unfold count_unique_customers, astype_str, nunique, unique.
    etrans; [apply length_unique_from|].
    rewrite list_filter_filter, dropna_fmap.
    apply length_omap_le.
  - rewrite count_unique_customers_size. unfold distinct_phones.
    rewrite size_empty_iff. split.
    + intros Hempty r Hin Hrow.
      destruct (phone_number r) as [p|] eqn:Hp; [|done]. exfalso.
      assert (Hel : p ∈ (list_to_set (omap phone_number
                (filter (row_of shop target) df)) : gset string)).
      { apply elem_of_list_to_set, list_elem_of_omap. exists r.
        split; [by apply list_elem_of_filter|done]. }
      rewrite Hempty in Hel. by apply not_elem_of_empty in Hel.
    + intros Hnull. apply set_equiv. intros p.
      rewrite elem_of_list_to_set, list_elem_of_omap. split.
      * intros (r & [Hrow Hin]%list_elem_of_filter & Hp).
        rewrite (Hnull r Hin Hrow) in Hp. done.
      * by intros ?%not_elem_of_empty.
Qed.

Lemma count_bounds_witness :
  count_unique_customers
    (filter (on_date Sample.jan20) (frame Sample.rows3)) "C" = 0%nat.
Proof.
  apply (count_bounds (frame Sample.rows3) Sample.jan20 "C").
  intros r Hin [Hshop _]. unfold Sample.rows3, frame in Hin.
  rewrite !fmap_cons in Hin.
  repeat (apply elem_of_cons in Hin as [->|Hin]);
    try reflexivity; try discriminate Hshop.
  by apply elem_of_nil in Hin.
Defined.


(** X9. The count depends on which rows were fetched, not on their order nor
    on how often each is repeated. *)
Theorem count_ignores_order_and_repeats (df df' : list LogRecord)
    (target : Z) (shop : string) :
  (∀ r, r ∈ df ↔ r ∈ df') →
  count_unique_customers (filter (on_date target) df) shop =
  count_unique_customers (filter (on_date target) df') shop.
Proof.
  intros Hsame. rewrite !count_unique_customers_size. f_equal.
  unfold distinct_phones. apply set_eq. intros p.
  rewrite !elem_of_list_to_set, !list_elem_of_omap.
  split; intros (r & [Hrow Hin]%list_elem_of_filter & Hp); exists r;
    (split; [|done]); apply list_elem_of_filter; split; try done;
    by apply Hsame.
Qed.

Lemma count_ignores_order_and_repeats_witness :
  count_unique_customers
    (filter (on_date Sample.jan20) (frame Sample.rows)) "A" =
  count_unique_customers
    (filter (on_date Sample.jan20)
       (reverse (frame Sample.rows) ++ frame Sample.rows)) "A".
Proof.
  apply (count_ignores_order_and_repeats (frame Sample.rows)
           (reverse (frame Sample.rows) ++ frame Sample.rows)
           Sample.jan20 "A").
  intros r. rewrite elem_of_app, elem_of_reverse. tauto.
Defined.


(** *** The lines of a run *)

Lemma for_shops_stdout df target shops w :
  stdout (for_ shops (shop_step (filter (on_date target) df) target) w).2 =
  stdout w ++
  ((λ shop, ShopLine shop target
      (count_unique_customers (filter (on_date target) df) shop)) <$>
   take (successes (put_item_raises w) (length shops)) shops).
Proof.
  revert w. induction shops as [|shop shops IH]; intros w.
  - simpl. by rewrite app_nil_r.
  - rewrite for_cons, shop_step_eq. cbv zeta. simpl successes.
    destruct (hd_oracle (put_item_raises w)).
    + simpl. by rewrite app_nil_r.
    + rewrite IH. simpl. by rewrite <- app_assoc.
Qed.

(** When some row is of the target date, the run prints the line of the
    date, then the number of shops it will visit, then one line per shop
    whose request succeeded, in the order of the requests: the line of a
    shop comes only after its item was stored, and a shop whose request
    raises gets none. *)
Lemma parsed_lines_of_a_run (df : list LogRecord) (w : world) :
  let target := target_date (hd_oracle (clock w)) in
  let shops := shops_of df target in
  let stored := successes (put_item_raises w) (length shops) in
  filter (on_date target) df ≠ [] →
  stdout (main_parsed df w).2 =
  stdout (dated w) ++
  ProcessingShops (length shops) target ::
  ((λ shop, ShopLine shop target
      (count_unique_customers (filter (on_date target) df) shop)) <$>
   take stored shops).
Proof.
  cbv zeta. intros Hrows. destruct df as [|r df]; [done|].
  rewrite main_parsed_eq, process_target_date_eq, decide_False by done.
  rewrite GenerateFacts.bind_eq. unfold print at 1. cbv beta iota.
  rewrite for_shops_stdout. simpl. by rewrite <- app_assoc.
Qed.


(** *** The run on the fetched rows *)

(** X5. A run only writes under keys made of the target date and a shop
    that has a row on that date: every other key holds what it held before,
    and no key is ever removed. *)
Theorem run_writes_only_target_keys (rows : list FetchedRow) (w : world)
    (shop : string) (date : Z) :
  let target := target_date (hd_oracle (clock w)) in
  let run := main_df rows w in
  (date ≠ target ∨ ¬ (∃ r, r ∈ frame rows ∧ row_of shop target r) →
   table run.2 !! (shop, date) = table w !! (shop, date)) ∧
  (is_Some (table w !! (shop, date)) → is_Some (table run.2 !! (shop, date))).
Proof.
  cbv zeta. destruct (one_format_or_not rows) as [Hfmt|Hnot].
  - rewrite main_df_parsed by done. apply parsed_run_writes_only_target_keys.
  - destruct (main_df_stopped rows w Hnot) as (_ & -> & _). done.
Qed.

Lemma run_writes_only_target_keys_witness :
  table (main_df Sample.rows (Sample.calm Sample.rows)).2
    !! ("B", Sample.jan19) = None.
Proof.
  destruct (run_writes_only_target_keys Sample.rows (Sample.calm Sample.rows)
              "B" Sample.jan19) as [Hother _].
  rewrite Hother; [reflexivity|]. left. vm_compute. intros [=].
Defined.

(** X6. A run sends at most one request per shop, never two for the same
    shop; when it ends normally it has sent exactly one for each shop that
    has a row on the target date, and for no other shop. *)
Theorem one_request_per_shop (rows : list FetchedRow) (w : world) :
  let target := target_date (hd_oracle (clock w)) in
  let run := main_df rows w in
  let sent := item_shop_id <$> issued w run.2 in
  NoDup sent ∧
  (∀ shop, shop ∈ sent → ∃ r, r ∈ frame rows ∧ row_of shop target r) ∧
  (run.1 = Ok tt →
   ∀ shop, (∃ r, r ∈ frame rows ∧ row_of shop target r) → shop ∈ sent).
Proof.
  cbv zeta. destruct (one_format_or_not rows) as [Hfmt|Hnot].
  - rewrite main_df_parsed by done. apply parsed_one_request_per_shop.
  - destruct (main_df_stopped rows w Hnot) as (-> & _ & ->).
    split; [constructor|]. split; [by intros shop ?%elem_of_nil|done].
Qed.

Lemma one_request_per_shop_witness :
  "A" ∈ (item_shop_id <$> issued (Sample.calm Sample.rows)
           (main_df Sample.rows (Sample.calm Sample.rows)).2).
Proof.
  destruct (one_request_per_shop Sample.rows (Sample.calm Sample.rows))
    as (_ & _ & Hall).
  apply (Hall eq_refl "A").
  exists (read (Sample.log (Some "A") (Some "+6581234567") Sample.jan20 10)).
  split; [apply list_elem_of_here|]. split; reflexivity.
Defined.

(** A row of another date still has its timestamp read: written in
    another format than the first row, it stops the run at line 132, where
    the run without it ends normally. *)
Lemma stale_row_can_stop_the_run :
  ¬ on_date Sample.jan20
      (read (Sample.log_fraction (Some "B") (Some "+6583333333") Sample.jan19 11)) ∧
  (main_df Sample.with_stale (Sample.calm Sample.with_stale)).1
    = Raise ValueError ∧
  (main_df (take 1 Sample.with_stale) (Sample.calm Sample.with_stale)).1
    = Ok tt.
Proof. split; [vm_compute; intros [=]|]. split; reflexivity. Qed.

(** X7. Once line 132 has read the timestamps, rows of other dates play no
    part: when the timestamps of the fetched rows, that of the row
    included, are written in one format, the run ends the same way, sends
    the same requests and leaves the same table with or without the row.
    When they are not, the run with the row raises [ValueError] at line 132
    and does nothing. *)
Theorem other_dates_are_ignored (l1 l2 : list FetchedRow) (r : FetchedRow)
    (w : world) :
  let target := target_date (hd_oracle (clock w)) in
  ¬ on_date target (read r) →
  (one_format (l1 ++ r :: l2) →
   (main_df (l1 ++ r :: l2) w).1 = (main_df (l1 ++ l2) w).1 ∧
   calls (main_df (l1 ++ r :: l2) w).2 = calls (main_df (l1 ++ l2) w).2 ∧
   table (main_df (l1 ++ r :: l2) w).2 = table (main_df (l1 ++ l2) w).2) ∧
  (¬ one_format (l1 ++ r :: l2) →
   main_df (l1 ++ r :: l2) w = (Raise ValueError, w)).
Proof.
  cbv zeta. intros Hdate. split.
  - intros Hfmt.
    rewrite (main_df_parsed (l1 ++ r :: l2)) by done.
    rewrite (main_df_parsed (l1 ++ l2)) by by eapply one_format_without.
    destruct (frame_without l1 l2 r) as [-> ->].
    by apply parsed_other_dates_are_ignored.
  - intros Hnot. by apply main_df_error.
Qed.

Lemma other_dates_are_ignored_witness :
  calls (main_df Sample.rows (Sample.calm Sample.rows)).2 =
  calls (main_df (take 3 Sample.rows) (Sample.calm Sample.rows)).2.
Proof.
  change Sample.rows with
    (take 3 Sample.rows ++
     Sample.log (Some "B") (Some "+6581111111") Sample.jan19 10 :: []) at 1.
  rewrite <- (app_nil_r (take 3 Sample.rows)) at 2.
  apply (other_dates_are_ignored (take 3 Sample.rows) []
           (Sample.log (Some "B") (Some "+6581111111") Sample.jan19 10)
           (Sample.calm Sample.rows)).
  - vm_compute. intros [=].
  - exists Sample.seconds. repeat constructor.
Defined.

(** The loop visits as many shops as have a row on the date. *)
Lemma length_shops_of df target :
  length (shops_of df target) = size (shops_on df target).
Proof.
  unfold shops_of, shops_on. rewrite <- dropna_fmap.
  apply (nunique_size (dropna (shop_id <$> filter (on_date target) df))).
Qed.

(** X10. When the timestamps are written in one format and some row is of
    the target date, the run prints the line of the date, then the number
    of shops that have a row on the date, then one line for each of the
    requests that succeeded, in the order they were sent, with the shop of
    the request and the number of distinct phone numbers of that shop on
    the date: a request that raises gets no line and nothing is printed
    after it.  When the timestamps are not in one format, nothing is
    printed. *)
Theorem lines_of_a_run (rows : list FetchedRow) (w : world) :
  let target := target_date (hd_oracle (clock w)) in
  let run := main_df rows w in
  let n := size (shops_on (frame rows) target) in
  let stored := successes (put_item_raises w) n in
  (one_format rows →
   (∃ r, r ∈ frame rows ∧ on_date target r) →
   stdout run.2 =
   stdout (dated w) ++
   ProcessingShops n target ::
   ((λ it, ShopLine (item_shop_id it) target
             (size (distinct_phones (frame rows) (item_shop_id it) target))) <$>
    take stored (issued w run.2))) ∧
  (¬ one_format rows → stdout run.2 = stdout w).
Proof.
  cbv zeta. split.
  - intros Hfmt (r & Hin & Hdate). rewrite main_df_parsed by done.
    rewrite parsed_lines_of_a_run.
    2:{ intros Hempty.
        assert (Hr : r ∈ filter (on_date (target_date (hd_oracle (clock w))))
                       (frame rows)) by by apply list_elem_of_filter.
        rewrite Hempty in Hr. by apply elem_of_nil in Hr. }
    rewrite issued_main_df. cbv zeta. rewrite length_shops_of.
    do 2 f_equal. rewrite take_take, Nat.min_l by lia.
    rewrite !fmap_take. f_equal. apply list_eq. intros i.
    rewrite !list_lookup_fmap, summaries_lookup.
    destruct (_ !! i) as [shop|]; [|done]. simpl.
    by rewrite count_unique_customers_size.
  - intros Hnot. by destruct (main_df_stopped rows w Hnot) as (_ & -> & _).
Qed.

Lemma lines_of_a_run_witness :
  stdout (main_df Sample.rows3 (Sample.failing Sample.rows3 1)).2 =
  [ComputingYesterday Sample.jan20 0; ProcessingShops 3 Sample.jan20;
   ShopLine "B" Sample.jan20 2].
Proof.
  rewrite (proj1 (lines_of_a_run Sample.rows3 (Sample.failing Sample.rows3 1))).
  - vm_compute. reflexivity.
  - exists Sample.seconds. repeat constructor.
  - exists (read (Sample.log (Some "B") (Some "+6581111111") Sample.jan20 8)).
    split; [apply list_elem_of_here|reflexivity].
Defined.

End AnalyticsMore.
